(** * Grok image generator: a shallow embedding of [main.py]

    The program is a client of a hosted image-generation service.  Its
    pipeline, [GrokImageGenerator.generate_images], sends one request,
    walks the returned descriptors, optionally stores each image in a
    file, and returns a dictionary.  Three front ends call it.

    Python values are dynamically typed, so arguments that the code only
    forwards or tests ([count], [format_type], [save_images], [prompt])
    are values of [pyval].  Everything outside the process (the remote
    service, HTTP downloads, the file system, the clock, the process
    environment) is an oracle in the record [Env]; the oracles see the
    history of effects so far, so the same request may be answered
    differently at different times.  Effects are recorded in a trace of
    [event]s.

    The definitions named after the source functions describe the runs
    in which the console accepts every message, and leave [print] out.
    The module [Console] models the same functions with their [print]
    statements, any of which may raise (an output stream that cannot
    encode a character, a closed pipe); [Console.generate_images] and
    [generate_images] are the same function when no [print] raises. *)

From Stdlib Require Import String Ascii List ZArith Lia Bool Arith.
From Stdlib Require Import PrimFloat.
Import ListNotations.
Open Scope list_scope.
Open Scope Z_scope.
Open Scope string_scope.
Set Warnings "-register-all".

(** ** Python values *)

Inductive pyval : Type :=
| PNone
| PBool (b : bool)
| PInt (z : Z)
| PFloat (f : float)
| PStr (s : string)
| PList (l : list pyval)
| PDict (d : list (string * pyval)).

(** A dictionary with string keys, in insertion order. *)
Definition dict := list (string * pyval).

Definition bytes := list Byte.byte.

(** [bool(v)]: the truth value Python gives to [v] in [if v] and [not v]. *)
Definition truthy (v : pyval) : bool :=
  match v with
  | PNone => false
  | PBool b => b
  | PInt z => negb (z =? 0)%Z
  | PFloat f => negb (PrimFloat.eqb f 0%float)
  | PStr s => negb (s =? "")
  | PList l => match l with [] => false | _ => true end
  | PDict d => match d with [] => false | _ => true end
  end.

(** [v == s] for a string literal [s]. *)
Definition py_eq_str (v : pyval) (s : string) : bool :=
  match v with
  | PStr t => (t =? s)
  | _ => false
  end.

(** [d.get(k)] on an association list; [None] when the key is absent. *)
Fixpoint dict_lookup (d : dict) (k : string) : option pyval :=
  match d with
  | [] => None
  | (k', v) :: d' => if (k' =? k) then Some v else dict_lookup d' k
  end.

(** [k in d] *)
Definition dict_mem (d : dict) (k : string) : bool :=
  match dict_lookup d k with Some _ => true | None => false end.

(** [d.get(k, default)] *)
Definition dict_get (d : dict) (k : string) (default : pyval) : pyval :=
  match dict_lookup d k with Some v => v | None => default end.

(** [d[k] = v]: replaces the value in place, or appends a new key. *)
Fixpoint dict_set (d : dict) (k : string) (v : pyval) : dict :=
  match d with
  | [] => [(k, v)]
  | (k', v') :: d' =>
      if (k' =? k) then (k', v) :: d' else (k', v') :: dict_set d' k v
  end.

(** An [Optional[str]] attribute as a Python value. *)
Definition of_opt_str (o : option string) : pyval :=
  match o with Some s => PStr s | None => PNone end.

(** ** Exceptions and outcomes *)

(** An exception of a subclass of [Exception]; [str(e)] is its message. *)
Record exn := Exception { exn_class : string; exn_msg : string }.

Definition str_of_exn (e : exn) : string := exn_msg e.

(** A call returns, raises an [Exception], or leaves through [sys.exit]
    ([SystemExit] derives from [BaseException], which [except Exception]
    does not catch). *)
Inductive outcome (A : Type) : Type :=
| Ret (a : A)
| Raise (e : exn)
| Exit (code : Z).
Arguments Ret {A} a.
Arguments Raise {A} e.
Arguments Exit {A} code.

(** ** Effects *)

Record datetime := {
  year : nat; month : nat; day : nat;
  hour : nat; minute : nat; second : nat; microsecond : nat }.

(** One element of [response.data]: the SDK's image object, whose three
    attributes are optional strings. *)
Record image_data := {
  revised_prompt : option string;
  url : option string;
  b64_json : option string }.

(** The keyword arguments of [client.images.generate], with the key and
    base URL the client was built with. *)
Record request := {
  req_base_url : string;
  req_api_key : string;
  req_model : string;
  req_prompt : pyval;
  req_n : pyval;
  req_response_format : pyval }.

Inductive event : Type :=
| EvMkdir (path : string)
| EvGenerate (r : request)
| EvNow
| EvHttpGet (url : string) (timeout : Z)
| EvWrite (path : string) (content : bytes)
| EvJsonDump (path : string) (value : pyval).

Definition world := list event.

(** One [print] statement of the pipeline, the generator or the HTTP
    handlers, with the values its text is built from; the comment gives
    the source line. *)
Inductive message : Type :=
| MsgSetKey                                  (* 36 *)
| MsgGetKey                                  (* 37 *)
| MsgInitialized                             (* 49 *)
| MsgOutputDirectory (path : string)         (* 50 *)
| MsgGenerating (count prompt : pyval)       (* 71 *)
| MsgErrorGenerating (e : exn)               (* 120 *)
| MsgSaved (filename : string)               (* 132 and 150 *)
| MsgErrorSavingUrl (e : exn)                (* 135 *)
| MsgErrorSavingB64 (e : exn)                (* 153 *)
| MsgSuccess (count : pyval)                 (* 172 *)
| MsgOriginalPrompt (prompt : pyval)         (* 173 *)
| MsgImage (index : pyval)                   (* 176 *)
| MsgRevisedPrompt (revised : pyval)         (* 177 *)
| MsgUrl (url : pyval)                       (* 179 *)
| MsgSavedTo (path : pyval).                 (* 181 *)

(** The program's surroundings.  [inl e] is a raised exception. *)
Record Env := {
  (** [os.getenv] *)
  getenv : string -> option string;
  (** [Path.mkdir(exist_ok=True)] *)
  mkdir : world -> string -> exn + unit;
  (** [client.images.generate(...)], returning [response.data], which the
      SDK types as an optional list *)
  images_generate : world -> request -> exn + option (list image_data);
  (** [requests.get(url, timeout=t)] followed by [raise_for_status()],
      returning [response.content] *)
  requests_get : world -> string -> Z -> exn + bytes;
  (** [open(path, 'wb')] and [f.write(content)] *)
  write_file : world -> string -> bytes -> exn + unit;
  (** [datetime.now()] *)
  datetime_now : world -> datetime;
  (** [open(path, 'w')] and [json.dump(value, f, indent=2)] *)
  json_dump : world -> string -> pyval -> exn + unit;
  (** one [print] statement: building its text and writing it to the
      standard output *)
  stdout_write : world -> message -> exn + unit;
  (** [base64.b64decode] *)
  b64decode : string -> exn + bytes;
  (** [int(s)] on text; [None] when it raises [ValueError] *)
  int_of_str : string -> option Z }.

(** State and exceptions: a computation maps the trace so far to an
    outcome and the extended trace.  The trace survives an exception. *)
Definition M (A : Type) : Type := world -> outcome A * world.

Definition ret {A} (a : A) : M A := fun w => (Ret a, w).

Definition bind {A B} (m : M A) (f : A -> M B) : M B :=
  fun w =>
    match m w with
    | (Ret a, w') => f a w'
    | (Raise e, w') => (Raise e, w')
    | (Exit c, w') => (Exit c, w')
    end.

Declare Scope py_scope.
Delimit Scope py_scope with py.
Notation "x <- c1 ;; c2" := (bind c1 (fun x => c2))
  (at level 100, c1 at next level, right associativity) : py_scope.
Notation "c1 ;; c2" := (bind c1 (fun _ => c2))
  (at level 100, right associativity) : py_scope.
Open Scope py_scope.

Definition raise {A} (e : exn) : M A := fun w => (Raise e, w).

Definition sys_exit {A} (code : Z) : M A := fun w => (Exit code, w).

(** [try: body except Exception as e: handler e] *)
Definition try_except {A} (body : M A) (handler : exn -> M A) : M A :=
  fun w =>
    match body w with
    | (Raise e, w') => handler e w'
    | r => r
    end.

Definition of_sum {A} (r : exn + A) : M A :=
  match r with inr a => ret a | inl e => raise e end.

(** An effectful call: the attempt is recorded whether or not it succeeds. *)
Definition call {A} (ev : event) (o : world -> exn + A) : M A :=
  fun w =>
    match o w with
    | inr a => (Ret a, (w ++ [ev])%list)
    | inl e => (Raise e, (w ++ [ev])%list)
    end.

(** [print(...)]: nothing is recorded in the trace; the statement raises
    when the surroundings say so. *)
Definition print (E : Env) (m : message) : M unit :=
  fun w =>
    match stdout_write E w m with
    | inr _ => (Ret tt, w)
    | inl e => (Raise e, w)
    end.

(** ** Strings

    A Python [str] is modelled by [string]; each [ascii] stands for the
    code point of the same number, so the strings are those over the
    code points 0 to 255. *)

Definition code (c : ascii) : nat := nat_of_ascii c.

Definition between (lo hi n : nat) : bool := ((lo <=? n) && (n <=? hi))%nat.

(** [str.isalnum] on one character: letters, decimal digits and the other
    numeric characters of the range. *)
Definition isalnum (c : ascii) : bool :=
  let n := code c in
  between 48 57 n || between 65 90 n || between 97 122 n
  || (n =? 170)%nat || between 178 179 n || (n =? 181)%nat
  || between 185 186 n || between 188 190 n
  || between 192 214 n || between 216 246 n || between 248 255 n.

(** [str.isspace] on one character: what [rstrip()] removes. *)
Definition isspace (c : ascii) : bool :=
  let n := code c in
  between 9 13 n || between 28 32 n || (n =? 133)%nat || (n =? 160)%nat.

(** [s.isalnum()]: every character is alphanumeric and there is one. *)
Fixpoint all_alnum (s : string) : bool :=
  match s with
  | EmptyString => true
  | String c s' => isalnum c && all_alnum s'
  end.

Definition str_isalnum (s : string) : bool :=
  match s with
  | EmptyString => false
  | _ => all_alnum s
  end.

(** [s.startswith(p)] *)
Fixpoint startswith (s p : string) : bool :=
  match p with
  | EmptyString => true
  | String a p' =>
      match s with
      | EmptyString => false
      | String b s' => Ascii.eqb b a && startswith s' p'
      end
  end.

(** [s.rstrip()] *)
Fixpoint rstrip (s : string) : string :=
  match s with
  | EmptyString => EmptyString
  | String c s' =>
      match rstrip s' with
      | EmptyString => if isspace c then EmptyString else String c EmptyString
      | r => String c r
      end
  end.

(** [s.lstrip()] *)
Fixpoint lstrip (s : string) : string :=
  match s with
  | EmptyString => EmptyString
  | String c s' => if isspace c then lstrip s' else s
  end.

(** [s.strip()] *)
Definition strip (s : string) : string := rstrip (lstrip s).

(** [s.lower()]: the capital letters of the range move up by 32. *)
Definition lower_char (c : ascii) : ascii :=
  let n := code c in
  if between 65 90 n || between 192 214 n || between 216 222 n
  then ascii_of_nat (n + 32) else c.

Fixpoint lower (s : string) : string :=
  match s with
  | EmptyString => EmptyString
  | String c s' => String (lower_char c) (lower s')
  end.

(** [s.replace(a, b)] for single characters [a] and [b]. *)
Fixpoint replace_char (a b : ascii) (s : string) : string :=
  match s with
  | EmptyString => EmptyString
  | String c s' =>
      String (if Ascii.eqb c a then b else c) (replace_char a b s')
  end.

(** [s[:n]] *)
Fixpoint take (n : nat) (s : string) : string :=
  match n, s with
  | S n', String c s' => String c (take n' s')
  | _, _ => EmptyString
  end.

(** [s.split(sep, 1)[1]]: the text after the first [sep]; [None] stands
    for the [IndexError] raised when [s] has no [sep]. *)
Fixpoint after_first (sep : ascii) (s : string) : option string :=
  match s with
  | EmptyString => None
  | String c s' => if Ascii.eqb c sep then Some s' else after_first sep s'
  end.

(** Decimal digits of a natural number, most significant first. *)
Fixpoint digits_fuel (fuel n : nat) (acc : string) : string :=
  match fuel with
  | O => acc
  | S f =>
      let acc' := String (ascii_of_nat (48 + n mod 10)) acc in
      if (n <? 10)%nat then acc' else digits_fuel f (n / 10) acc'
  end.

Definition str_of_nat (n : nat) : string := digits_fuel (S n) n "".

(** [str(z)] for an integer. *)
Definition str_of_Z (z : Z) : string :=
  if (z <? 0)%Z then "-" ++ str_of_nat (Z.to_nat (- z))
  else str_of_nat (Z.to_nat z).

(** Left padding with zeros up to [width] characters. *)
Fixpoint zeros (k : nat) : string :=
  match k with O => "" | S k' => String "0" (zeros k') end.

Definition zfill (width : nat) (s : string) : string :=
  zeros (width - String.length s) ++ s.

(** [f"{index:02d}"]: at least two characters; the sign of a negative
    number counts as one of them. *)
Definition format_02d (index : Z) : string := zfill 2 (str_of_Z index).

(** [d.strftime("%Y%m%d_%H%M%S")] *)
Definition strftime (d : datetime) : string :=
  zfill 4 (str_of_nat (year d)) ++ zfill 2 (str_of_nat (month d))
  ++ zfill 2 (str_of_nat (day d)) ++ "_"
  ++ zfill 2 (str_of_nat (hour d)) ++ zfill 2 (str_of_nat (minute d))
  ++ zfill 2 (str_of_nat (second d)).

(** [d.isoformat()]: the fraction is printed only when it is not zero. *)
Definition isoformat (d : datetime) : string :=
  zfill 4 (str_of_nat (year d)) ++ "-" ++ zfill 2 (str_of_nat (month d))
  ++ "-" ++ zfill 2 (str_of_nat (day d)) ++ "T"
  ++ zfill 2 (str_of_nat (hour d)) ++ ":" ++ zfill 2 (str_of_nat (minute d))
  ++ ":" ++ zfill 2 (str_of_nat (second d))
  ++ (if (microsecond d =? 0)%nat then ""
      else "." ++ zfill 6 (str_of_nat (microsecond d))).

(** [for c in v]: the elements Python iterates over, or [TypeError]. *)
Definition not_iterable (ty : string) : exn :=
  Exception "TypeError" ("'" ++ ty ++ "' object is not iterable").

Fixpoint chars_of (s : string) : list pyval :=
  match s with
  | EmptyString => []
  | String c s' => PStr (String c EmptyString) :: chars_of s'
  end.

Definition py_iter (v : pyval) : exn + list pyval :=
  match v with
  | PStr s => inr (chars_of s)
  | PList l => inr l
  | PDict d => inr (map (fun kv => PStr (fst kv)) d)
  | PNone => inl (not_iterable "NoneType")
  | PBool _ => inl (not_iterable "bool")
  | PInt _ => inl (not_iterable "int")
  | PFloat _ => inl (not_iterable "float")
  end.

Definition no_isalnum (ty : string) : exn :=
  Exception "AttributeError"
    ("'" ++ ty ++ "' object has no attribute 'isalnum'").

(** The condition of the generator expression in [_generate_filename],
    [c.isalnum() or c in (' ', '-', '_')], with the string it keeps. *)
Definition keep (c : pyval) : exn + option string :=
  match c with
  | PStr s =>
      if str_isalnum s || (s =? " ") || (s =? "-") || (s =? "_")
      then inr (Some s) else inr None
  | PNone => inl (no_isalnum "NoneType")
  | PBool _ => inl (no_isalnum "bool")
  | PInt _ => inl (no_isalnum "int")
  | PFloat _ => inl (no_isalnum "float")
  | PList _ => inl (no_isalnum "list")
  | PDict _ => inl (no_isalnum "dict")
  end.

(** ["".join(c for c in cs if ...)]: the first exception ends it. *)
Fixpoint join_kept (cs : list pyval) : exn + string :=
  match cs with
  | [] => inr ""
  | c :: cs' =>
      match keep c with
      | inl e => inl e
      | inr o =>
          match join_kept cs' with
          | inl e => inl e
          | inr r => inr (match o with Some s => s ++ r | None => r end)
          end
      end
  end.

(** ** [GrokImageGenerator] *)

(** The instance attributes: the key and base URL held by [self.client],
    and [self.output_dir]. *)
Record generator := {
  api_key : string;
  base_url : string;
  output_dir : string }.

(** The key written into [__init__]. *)
Definition embedded_key : string :=
  "xai-wxr9EEv2LIgSUkUSpUq9j8fWUPoEmxRf5cBXOTj5pzrzlqWwsraw2amkVTVLmXDfViOhdgKLddq08pms".

Definition placeholder_key : string := "xai-YOUR_API_KEY_HERE".

(** [x or y] for an optional string [x]: [None] and [""] are false. *)
Definition or_str (x : option string) (y : string) : string :=
  match x with
  | Some s => if s =? "" then y else s
  | None => y
  end.

(** [GrokImageGenerator.__init__] *)
Definition __init__ (E : Env) (key : option string) : M generator :=
  let k := or_str key embedded_key in
  k <- (if k =? placeholder_key then
          match getenv E "XAI_API_KEY" with
          | Some env_key =>
              if env_key =? "" then sys_exit 1 else ret env_key
          | None => sys_exit 1
          end
        else ret k) ;;
  call (EvMkdir "generated_images")
       (fun w => mkdir E w "generated_images") ;;
  ret {| api_key := k;
         base_url := "https://api.x.ai/v1";
         output_dir := "generated_images" |}.

(** [datetime.now()] *)
Definition now (E : Env) : M datetime :=
  fun w => (Ret (datetime_now E w), (w ++ [EvNow])%list).

(** [name.split('/')] *)
Fixpoint split_slash (name : string) : list string :=
  match name with
  | EmptyString => [EmptyString]
  | String c name' =>
      if Ascii.eqb c "/" then EmptyString :: split_slash name'
      else
        match split_slash name' with
        | [] => [String c EmptyString]
        | x :: xs => String c x :: xs
        end
  end.

(** The components [pathlib] keeps: not empty and not ["."]. *)
Definition path_parts (name : string) : list string :=
  filter (fun x => negb (x =? "") && negb (x =? ".")) (split_slash name).

(** [str(directory / name)] on a POSIX system, where [directory] is a
    relative path already in normal form (it is ["generated_images"]
    throughout).  A [name] that starts with a slash replaces the
    directory; exactly two leading slashes are kept as they are. *)
Definition path_div (directory name : string) : string :=
  if startswith name "/" then
    (if startswith name "//" && negb (startswith name "///") then "//" else "/")
    ++ String.concat "/" (path_parts name)
  else String.concat "/" (directory :: path_parts name).

(** The first two lines of [_generate_filename]: the cleaned prompt. *)
Definition safe_prompt (prompt : pyval) : exn + string :=
  match py_iter prompt with
  | inl e => inl e
  | inr cs =>
      match join_kept cs with
      | inl e => inl e
      | inr s => inr (take 50 (replace_char " " "_" (rstrip s)))
      end
  end.

(** [GrokImageGenerator._generate_filename] *)
Definition _generate_filename (E : Env) (self : generator)
    (prompt : pyval) (index : Z) (extension : string) : M string :=
  safe <- of_sum (safe_prompt prompt) ;;
  t <- now E ;;
  let timestamp := strftime t in
  let filename :=
    safe ++ "_" ++ timestamp ++ "_" ++ format_02d index ++ "." ++ extension in
  ret (path_div (output_dir self) filename).

(** [GrokImageGenerator.save_image_from_url] *)
Definition save_image_from_url (E : Env) (image_url : string)
    (filename : string) : M bool :=
  try_except
    (content <- call (EvHttpGet image_url 30)
                     (fun w => requests_get E w image_url 30) ;;
     call (EvWrite filename content)
          (fun w => write_file E w filename content) ;;
     ret true)
    (fun _ => ret false).

Definition index_error : exn :=
  Exception "IndexError" "list index out of range".

(** [GrokImageGenerator.save_image_from_b64] *)
Definition save_image_from_b64 (E : Env) (b64_string : string)
    (filename : string) : M bool :=
  try_except
    (b64_string <-
       (if startswith b64_string "data:image" then
          match after_first "," b64_string with
          | Some rest => ret rest
          | None => raise index_error
          end
        else ret b64_string) ;;
     image_bytes <- of_sum (b64decode E b64_string) ;;
     call (EvWrite filename image_bytes)
          (fun w => write_file E w filename image_bytes) ;;
     ret true)
    (fun _ => ret false).

(** The dictionary [image_info] of one loop iteration; [saved_path] is
    [PNone] when it is created. *)
Definition image_info (i : Z) (d : image_data) (saved_path : pyval) : dict :=
  [ ("index", PInt (i + 1));
    ("revised_prompt", of_opt_str (revised_prompt d));
    ("url", of_opt_str (url d));
    ("b64_json", of_opt_str (b64_json d));
    ("saved_path", saved_path) ].

(** The text of a truthy optional string. *)
Definition nonempty (o : option string) : option string :=
  match o with
  | Some s => if s =? "" then None else Some s
  | None => None
  end.

(** The body of the loop over [enumerate(response.data)]: the finished
    [image_info] of the image at position [i]. *)
Definition image_step (E : Env) (self : generator)
    (prompt format_type save_images : pyval) (i : Z) (d : image_data)
    : M pyval :=
  let info := image_info i d PNone in
  if truthy save_images then
    match py_eq_str format_type "url", nonempty (url d) with
    | true, Some u =>
        filename <- _generate_filename E self prompt (i + 1) "jpg" ;;
        ok <- save_image_from_url E u filename ;;
        ret (PDict (if ok then dict_set info "saved_path" (PStr filename)
                    else info))
    | _, _ =>
        match py_eq_str format_type "b64_json", nonempty (b64_json d) with
        | true, Some b =>
            filename <- _generate_filename E self prompt (i + 1) "jpg" ;;
            ok <- save_image_from_b64 E b filename ;;
            ret (PDict (if ok then dict_set info "saved_path" (PStr filename)
                        else info))
        | _, _ => ret (PDict info)
        end
    end
  else ret (PDict info).

(** The loop: the contents of [result['images']] after the images from
    position [i] on have been appended. *)
Fixpoint images_loop (E : Env) (self : generator)
    (prompt format_type save_images : pyval) (i : Z)
    (data : list image_data) : M (list pyval) :=
  match data with
  | [] => ret []
  | d :: rest =>
      info <- image_step E self prompt format_type save_images i d ;;
      infos <- images_loop E self prompt format_type save_images (i + 1) rest ;;
      ret (info :: infos)
  end.

Definition no_len : exn :=
  Exception "TypeError" "object of type 'NoneType' has no len()".

(** The request built by [generate_images]. *)
Definition generate_request (self : generator)
    (prompt count format_type : pyval) : request :=
  {| req_base_url := base_url self;
     req_api_key := api_key self;
     req_model := "grok-2-image";
     req_prompt := prompt;
     req_n := count;
     req_response_format := format_type |}.

(** The dictionary built in the [except] branch. *)
Definition error_result (e : exn) (prompt : pyval) : dict :=
  [ ("success", PBool false);
    ("error", PStr (str_of_exn e));
    ("original_prompt", prompt) ].

(** The dictionary [result], with the list its ['images'] entry holds
    when the loop is over. *)
Definition success_result (prompt : pyval) (data : list image_data)
    (images : list pyval) (t : datetime) : dict :=
  [ ("success", PBool true);
    ("original_prompt", prompt);
    ("count", PInt (Z.of_nat (List.length data)));
    ("images", PList images);
    ("timestamp", PStr (isoformat t)) ].

(** [GrokImageGenerator.generate_images] when every [print] is written:
    the statements of the source without the [print] at the start, the
    call of [_print_results] at the end of the [try] and the [print] of
    the [except] branch.  [Console.generate_images] has them. *)
Definition generate_images (E : Env) (self : generator)
    (prompt count format_type save_images : pyval) : M dict :=
  try_except
    (let r := generate_request self prompt count format_type in
     response_data <- call (EvGenerate r) (fun w => images_generate E w r) ;;
     data <- match response_data with
             | Some data => ret data
             | None => raise no_len
             end ;;
     t <- now E ;;
     images <- images_loop E self prompt format_type save_images 0 data ;;
     ret (success_result prompt data images t))
    (fun e => ret (error_result e prompt)).

(** [GrokImageGenerator.save_session_log] *)
Definition save_session_log (E : Env) (self : generator)
    (results : list dict) (filename : option string) : M unit :=
  filename <- match nonempty filename with
              | Some f => ret f
              | None =>
                  t <- now E ;;
                  ret ("session_log_" ++ strftime t ++ ".json")
              end ;;
  let log_path := path_div (output_dir self) filename in
  call (EvJsonDump log_path (PList (map PDict results)))
       (fun w => json_dump E w log_path (PList (map PDict results))).

(** ** Front ends *)

Definition eof_error : exn :=
  Exception "EOFError" "EOF when reading a line".

(** The count typed in interactive mode:
    [max(1, min(10, int(line or "1")))], or 1 after a [ValueError]. *)
Definition interactive_count (E : Env) (line : string) : Z :=
  match int_of_str E (if line =? "" then "1" else line) with
  | Some count => Z.max 1 (Z.min 10 count)
  | None => 1
  end.

(** The loop of [interactive_mode].  [lines] is what remains of the
    standard input, one element per [input()]; reading past its end
    raises [EOFError].  The value returned at exit is [session_results],
    so that it can be observed. *)
Fixpoint interactive_loop (E : Env) (generator : generator)
    (lines : list string) (session_results : list dict) : M (list dict) :=
  match lines with
  | [] => raise eof_error
  | line :: rest =>
      let choice := strip line in
      if choice =? "1" then
        match rest with
        | [] => raise eof_error
        | prompt_line :: rest1 =>
            let prompt := strip prompt_line in
            if prompt =? "" then
              interactive_loop E generator rest1 session_results
            else
              match rest1 with
              | [] => raise eof_error
              | count_line :: rest2 =>
                  let count := interactive_count E count_line in
                  match rest2 with
                  | [] => raise eof_error
                  | format_line :: rest3 =>
                      let format_choice := lower (strip format_line) in
                      let format_type :=
                        if format_choice =? "b64" then "b64_json" else "url" in
                      result <- generate_images E generator (PStr prompt)
                                  (PInt count) (PStr format_type)
                                  (PBool true) ;;
                      interactive_loop E generator rest3
                        (session_results ++ [result])%list
                  end
              end
        end
      else if choice =? "2" then
        interactive_loop E generator rest session_results
      else if choice =? "3" then
        match session_results with
        | [] => interactive_loop E generator rest session_results
        | _ =>
            save_session_log E generator session_results None ;;
            interactive_loop E generator rest session_results
        end
      else if choice =? "4" then
        match session_results with
        | [] => ret session_results
        | _ =>
            match rest with
            | [] => raise eof_error
            | save_line :: _ =>
                if lower (strip save_line) =? "y" then
                  save_session_log E generator session_results None ;;
                  ret session_results
                else ret session_results
            end
        end
      else interactive_loop E generator rest session_results
  end.

(** [interactive_mode] *)
Definition interactive_mode (E : Env) (lines : list string)
    : M (list dict) :=
  generator <- __init__ E None ;;
  interactive_loop E generator lines [].

Definition EXAMPLE_PROMPTS : list string :=
  [ "A majestic dragon flying over a medieval castle at sunset";
    "A futuristic city with flying cars and neon lights";
    "A cute robot cat sitting in a flower garden";
    "A magical forest with glowing mushrooms and fairy lights";
    "A space station orbiting a colorful nebula";
    "A steampunk airship floating above the clouds";
    "A cozy coffee shop on a rainy day with warm lighting";
    "A cyberpunk street market with holographic displays" ].

(** [quick_demo]; [line] is the line typed at the prompt, [None] at the
    end of the input.  The result is [None] when no image was asked
    for. *)
Definition quick_demo (E : Env) (line : option string) : M (option dict) :=
  generator <- __init__ E None ;;
  match line with
  | None => raise eof_error
  | Some line =>
      match int_of_str E line with
      | None => ret None
      | Some n =>
          let choice := n - 1 in
          if (0 <=? choice)%Z
             && (choice <? Z.of_nat (List.length EXAMPLE_PROMPTS))%Z
          then
            match nth_error EXAMPLE_PROMPTS (Z.to_nat choice) with
            | Some selected_prompt =>
                result <- generate_images E generator (PStr selected_prompt)
                            (PInt 1) (PStr "url") (PBool true) ;;
                ret (Some result)
            | None => raise index_error
            end
          else ret None
      end
  end.



(** An HTTP response: the JSON body and the status code. *)
Definition response := (dict * Z)%type.

(** [api_generate_images], the handler of [POST /generate], for a
    request whose body is a JSON object [data]; for any other request
    see [Console.api_generate_images]. *)
Definition api_generate_images (E : Env) (data : dict) : M response :=
  let prompt := dict_get data "prompt" PNone in
  let count := dict_get data "count" (PInt 1) in
  let format_type := dict_get data "format" (PStr "url") in
  let save_images := dict_get data "save_images" (PBool true) in
  if negb (truthy prompt) then
    ret ([("success", PBool false); ("error", PStr "Prompt is required")], 400)
  else
    try_except
      (generator <- __init__ E None ;;
       result <- generate_images E generator prompt count format_type
                   save_images ;;
       ret (result, 200))
      (fun e =>
         ret ([("success", PBool false); ("error", PStr (str_of_exn e))], 500)).

Definition type_name (v : pyval) : string :=
  match v with
  | PNone => "NoneType"
  | PBool _ => "bool"
  | PInt _ => "int"
  | PFloat _ => "float"
  | PStr _ => "str"
  | PList _ => "list"
  | PDict _ => "dict"
  end.

Definition not_comparable (v : pyval) : exn :=
  Exception "TypeError"
    ("'>' not supported between instances of '" ++ type_name v
     ++ "' and 'int'").

(** [min(max(1, v), 10)].  [max] keeps the 1 unless [v > 1], and [min]
    keeps what [max] returned unless 10 is smaller.  A [bool] compares as
    0 or 1 and never exceeds the 1; a [float] compares by value (a NaN is
    never greater than 1) and is returned as it is when it lies between
    1 and 10; [None], text, lists and dictionaries do not compare with
    an [int]. *)
Definition min_max_1_10 (v : pyval) : exn + pyval :=
  match v with
  | PInt z => inr (PInt (Z.min (Z.max 1 z) 10))
  | PBool _ => inr (PInt 1)
  | PFloat f =>
      if PrimFloat.ltb 1%float f then
        if PrimFloat.ltb 10%float f then inr (PInt 10) else inr (PFloat f)
      else inr (PInt 1)
  | PNone => inl (not_comparable v)
  | PStr _ => inl (not_comparable v)
  | PList _ => inl (not_comparable v)
  | PDict _ => inl (not_comparable v)
  end.

(** [if format_type not in ['url', 'b64_json']: format_type = 'url'] *)
Definition checked_format (format_type : pyval) : pyval :=
  if negb (py_eq_str format_type "url" || py_eq_str format_type "b64_json")
  then PStr "url" else format_type.

(** [generate_image], the handler of [POST /generate-image] defined in
    [api_server_mode]; [generator] is the one built when the server
    starts, [is_json] is [request.is_json] and [data] the JSON object of
    the body.  An exception that leaves the handler is answered by the
    framework with status 500. *)
Definition generate_image (E : Env) (generator : generator)
    (is_json : bool) (data : dict) : M response :=
  if negb is_json then
    ret ([("error", PStr "Request must be JSON")], 400)
  else if negb (dict_mem data "prompt") then
    ret ([("error", PStr "Prompt is required")], 400)
  else
    let prompt := dict_get data "prompt" PNone in
    count <- of_sum (min_max_1_10 (dict_get data "count" (PInt 1))) ;;
    let format_type := checked_format (dict_get data "format" (PStr "url")) in
    let save_images := dict_get data "save_images" (PBool true) in
    result <- generate_images E generator prompt count format_type
                save_images ;;
    ret (result, 200).

(** [health_check] *)
Definition health_check : response :=
  ([("status", PStr "ok"); ("service", PStr "Grok 2 Image Generator API")],
   200).

(** ** The functions with their console output

    The same functions, statement by statement, with every [print] of
    the source.  [_generate_filename] prints nothing and is shared. *)

Definition key_error (k : string) : exn :=
  Exception "KeyError" ("'" ++ k ++ "'").

(** [d[k]] on a dictionary *)
Definition dict_item (d : dict) (k : string) : exn + pyval :=
  match dict_lookup d k with
  | Some v => inr v
  | None => inl (key_error k)
  end.

(** [v[k]] for a text key [k]: only a dictionary can be indexed so. *)
Definition py_item (v : pyval) (k : string) : exn + pyval :=
  match v with
  | PDict d => dict_item d k
  | PStr _ =>
      inl (Exception "TypeError" "string indices must be integers, not 'str'")
  | PList _ =>
      inl (Exception "TypeError"
             "list indices must be integers or slices, not str")
  | PNone | PBool _ | PInt _ | PFloat _ =>
      inl (Exception "TypeError"
             ("'" ++ type_name v ++ "' object is not subscriptable"))
  end.

(** [data.get(k, default)] on the value of [request.json]: only a
    dictionary has the method. *)
Definition py_get (data : pyval) (k : string) (default : pyval)
    : exn + pyval :=
  match data with
  | PDict d => inr (dict_get d k default)
  | _ =>
      inl (Exception "AttributeError"
             ("'" ++ type_name data ++ "' object has no attribute 'get'"))
  end.

Module Console.

(** [GrokImageGenerator.__init__] *)
Definition __init__ (E : Env) (key : option string) : M generator :=
  let k := or_str key embedded_key in
  k <- (if k =? placeholder_key then
          match getenv E "XAI_API_KEY" with
          | Some env_key =>
              if env_key =? "" then
                print E MsgSetKey ;; print E MsgGetKey ;; sys_exit 1
              else ret env_key
          | None => print E MsgSetKey ;; print E MsgGetKey ;; sys_exit 1
          end
        else ret k) ;;
  call (EvMkdir "generated_images")
       (fun w => mkdir E w "generated_images") ;;
  print E MsgInitialized ;;
  print E (MsgOutputDirectory "generated_images") ;;
  ret {| api_key := k;
         base_url := "https://api.x.ai/v1";
         output_dir := "generated_images" |}.

(** [GrokImageGenerator.save_image_from_url] *)
Definition save_image_from_url (E : Env) (image_url : string)
    (filename : string) : M bool :=
  try_except
    (content <- call (EvHttpGet image_url 30)
                     (fun w => requests_get E w image_url 30) ;;
     call (EvWrite filename content)
          (fun w => write_file E w filename content) ;;
     print E (MsgSaved filename) ;;
     ret true)
    (fun e => print E (MsgErrorSavingUrl e) ;; ret false).

(** [GrokImageGenerator.save_image_from_b64] *)
Definition save_image_from_b64 (E : Env) (b64_string : string)
    (filename : string) : M bool :=
  try_except
    (b64_string <-
       (if startswith b64_string "data:image" then
          match after_first "," b64_string with
          | Some rest => ret rest
          | None => raise index_error
          end
        else ret b64_string) ;;
     image_bytes <- of_sum (b64decode E b64_string) ;;
     call (EvWrite filename image_bytes)
          (fun w => write_file E w filename image_bytes) ;;
     print E (MsgSaved filename) ;;
     ret true)
    (fun e => print E (MsgErrorSavingB64 e) ;; ret false).

(** The body of the loop over [enumerate(response.data)]. *)
Definition image_step (E : Env) (self : generator)
    (prompt format_type save_images : pyval) (i : Z) (d : image_data)
    : M pyval :=
  let info := image_info i d PNone in
  if truthy save_images then
    match py_eq_str format_type "url", nonempty (url d) with
    | true, Some u =>
        filename <- _generate_filename E self prompt (i + 1) "jpg" ;;
        ok <- save_image_from_url E u filename ;;
        ret (PDict (if ok then dict_set info "saved_path" (PStr filename)
                    else info))
    | _, _ =>
        match py_eq_str format_type "b64_json", nonempty (b64_json d) with
        | true, Some b =>
            filename <- _generate_filename E self prompt (i + 1) "jpg" ;;
            ok <- save_image_from_b64 E b filename ;;
            ret (PDict (if ok then dict_set info "saved_path" (PStr filename)
                        else info))
        | _, _ => ret (PDict info)
        end
    end
  else ret (PDict info).

Fixpoint images_loop (E : Env) (self : generator)
    (prompt format_type save_images : pyval) (i : Z)
    (data : list image_data) : M (list pyval) :=
  match data with
  | [] => ret []
  | d :: rest =>
      info <- image_step E self prompt format_type save_images i d ;;
      infos <- images_loop E self prompt format_type save_images (i + 1) rest ;;
      ret (info :: infos)
  end.

(** The loop of [_print_results] over [result['images']]. *)
Fixpoint print_images (E : Env) (images : list pyval) : M unit :=
  match images with
  | [] => ret tt
  | img :: rest =>
      index <- of_sum (py_item img "index") ;;
      print E (MsgImage index) ;;
      revised <- of_sum (py_item img "revised_prompt") ;;
      print E (MsgRevisedPrompt revised) ;;
      u <- of_sum (py_item img "url") ;;
      (if truthy u then print E (MsgUrl u) else ret tt) ;;
      saved <- of_sum (py_item img "saved_path") ;;
      (if truthy saved then print E (MsgSavedTo saved) else ret tt) ;;
      print_images E rest
  end.

(** [GrokImageGenerator._print_results] *)
Definition _print_results (E : Env) (result : dict) : M unit :=
  success <- of_sum (dict_item result "success") ;;
  if negb (truthy success) then ret tt
  else
    count <- of_sum (dict_item result "count") ;;
    print E (MsgSuccess count) ;;
    original <- of_sum (dict_item result "original_prompt") ;;
    print E (MsgOriginalPrompt original) ;;
    images <- of_sum (dict_item result "images") ;;
    images <- of_sum (py_iter images) ;;
    print_images E images.

(** The [try] block of [generate_images]. *)
Definition generate_images_try (E : Env) (self : generator)
    (prompt count format_type save_images : pyval) : M dict :=
  let r := generate_request self prompt count format_type in
  response_data <- call (EvGenerate r) (fun w => images_generate E w r) ;;
  data <- match response_data with
          | Some data => ret data
          | None => raise no_len
          end ;;
  t <- now E ;;
  images <- images_loop E self prompt format_type save_images 0 data ;;
  let result := success_result prompt data images t in
  _print_results E result ;;
  ret result.

(** [GrokImageGenerator.generate_images]: the first [print] comes before
    the [try], the last one is in the [except] branch. *)
Definition generate_images (E : Env) (self : generator)
    (prompt count format_type save_images : pyval) : M dict :=
  print E (MsgGenerating count prompt) ;;
  try_except
    (generate_images_try E self prompt count format_type save_images)
    (fun e =>
       let error_result := error_result e prompt in
       print E (MsgErrorGenerating e) ;;
       ret error_result).

(** [api_generate_images], the handler of [POST /generate].
    [request_json] is what [request.json] gives: the parsed body, or the
    exception it raises for a request that is not JSON.  The reads of
    [data] come before the [try]. *)
Definition api_generate_images (E : Env) (request_json : exn + pyval)
    : M response :=
  data <- of_sum request_json ;;
  prompt <- of_sum (py_get data "prompt" PNone) ;;
  count <- of_sum (py_get data "count" (PInt 1)) ;;
  format_type <- of_sum (py_get data "format" (PStr "url")) ;;
  save_images <- of_sum (py_get data "save_images" (PBool true)) ;;
  if negb (truthy prompt) then
    ret ([("success", PBool false); ("error", PStr "Prompt is required")], 400)
  else
    try_except
      (generator <- __init__ E None ;;
       result <- generate_images E generator prompt count format_type
                   save_images ;;
       ret (result, 200))
      (fun e =>
         ret ([("success", PBool false); ("error", PStr (str_of_exn e))], 500)).

End Console.

(** ** A concrete environment

    Used to run the model on examples: no [XAI_API_KEY], a service that
    answers with two images, a download that fails for one address, and a
    clock that stands still. *)

Definition img (u : string) : image_data :=
  {| revised_prompt := Some "a red fox, detailed"; url := Some u;
     b64_json := None |}.

Definition connection_error : exn :=
  Exception "ConnectionError" "Connection refused".

Definition sample_env : Env :=
  {| getenv := fun _ => None;
     mkdir := fun _ _ => inr tt;
     images_generate :=
       fun _ _ => inr (Some [img "http://x/bad"; img "http://x/good"]);
     requests_get :=
       fun _ u _ =>
         if u =? "http://x/bad" then inl connection_error
         else inr [Byte.x01];
     write_file := fun _ _ _ => inr tt;
     datetime_now :=
       fun _ => {| year := 2024; month := 1; day := 2; hour := 3;
                   minute := 4; second := 5; microsecond := 0 |};
     json_dump := fun _ _ _ => inr tt;
     stdout_write := fun _ _ => inr tt;
     b64decode := fun _ => inr [Byte.x02];
     int_of_str :=
       fun s => if s =? "1" then Some 1 else if s =? "3" then Some 3
                else if s =? "50" then Some 50 else None |}.

(** The same surroundings with a service that cannot be reached. *)
Definition failing_env : Env :=
  {| getenv := getenv sample_env;
     mkdir := mkdir sample_env;
     images_generate := fun _ _ => inl connection_error;
     requests_get := requests_get sample_env;
     write_file := write_file sample_env;
     datetime_now := datetime_now sample_env;
     json_dump := json_dump sample_env;
     stdout_write := stdout_write sample_env;
     b64decode := b64decode sample_env;
     int_of_str := int_of_str sample_env |}.

Definition unicode_encode_error : exn :=
  Exception "UnicodeEncodeError"
    "'charmap' codec can't encode a character of the message".

(** The same surroundings with a standard output that cannot encode the
    pictographs of the messages (a legacy code page, an ASCII stream):
    the messages whose fixed text has none are written. *)
Definition legacy_console_env : Env :=
  {| getenv := getenv sample_env;
     mkdir := mkdir sample_env;
     images_generate := images_generate sample_env;
     requests_get := requests_get sample_env;
     write_file := write_file sample_env;
     datetime_now := datetime_now sample_env;
     json_dump := json_dump sample_env;
     stdout_write :=
       fun _ m =>
         match m with
         | MsgGetKey | MsgRevisedPrompt _ | MsgUrl _ | MsgSavedTo _ => inr tt
         | _ => inl unicode_encode_error
         end;
     b64decode := b64decode sample_env;
     int_of_str := int_of_str sample_env |}.

Definition sample_generator : generator :=
  {| api_key := "key"; base_url := "https://api.x.ai/v1";
     output_dir := "generated_images" |}.

(** ** Specification-side definitions *)

(** The characters that the filename derivation keeps, as the
    specification lists them: alphanumeric, space, hyphen, underscore. *)
Definition allowed (c : ascii) : bool :=
  isalnum c || Ascii.eqb c " " || Ascii.eqb c "-" || Ascii.eqb c "_".

Fixpoint str_filter (f : ascii -> bool) (s : string) : string :=
  match s with
  | EmptyString => EmptyString
  | String c s' => if f c then String c (str_filter f s') else str_filter f s'
  end.

(** Every character of [s] satisfies [P]. *)
Fixpoint all_chars (P : ascii -> bool) (s : string) : bool :=
  match s with
  | EmptyString => true
  | String c s' => P c && all_chars P s'
  end.

Definition is_digit (c : ascii) : bool := between 48 57 (code c).

(** The characters of a cleaned prompt: alphanumeric, hyphen,
    underscore. *)
Definition safe_char (c : ascii) : bool :=
  isalnum c || Ascii.eqb c "-" || Ascii.eqb c "_".

(** The characters of a derived file name: those and the dot. *)
Definition name_char (c : ascii) : bool := safe_char c || Ascii.eqb c ".".

(** Reading decimal digits back: the number written by [s], continuing
    from [a]. *)
Fixpoint value_aux (a : nat) (s : string) : nat :=
  match s with
  | EmptyString => a
  | String c s' => value_aux (a * 10 + (code c - 48)) s'
  end.

(** Reading back an index field written by [format_02d]. *)
Definition read_02d (s : string) : Z :=
  match s with
  | EmptyString => 0
  | String c r =>
      if Ascii.eqb c "-" then - Z.of_nat (value_aux 0 r)
      else Z.of_nat (value_aux 0 s)
  end.

(** The path the specification describes for a text prompt, an image
    index and a clock reading. *)
Definition filename_spec (directory prompt : string) (index : Z)
    (t : datetime) : string :=
  directory ++ "/"
  ++ take 50 (replace_char " " "_" (rstrip (str_filter allowed prompt)))
  ++ "_" ++ strftime t ++ "_" ++ format_02d index ++ ".jpg".


(** The descriptors of [data] from position [i] on when nothing is
    saved: every [saved_path] is [None]. *)
Fixpoint unsaved_infos (i : Z) (data : list image_data) : list pyval :=
  match data with
  | [] => []
  | d :: rest => PDict (image_info i d PNone) :: unsaved_infos (i + 1) rest
  end.


(** What interactive mode may do: requests to the service only for a
    non-empty text prompt, between 1 and 10 images, in one of the two
    formats; any other effect. *)
Definition interactive_event (ev : event) : Prop :=
  match ev with
  | EvGenerate r =>
      exists p n f,
        req_prompt r = PStr p /\ p <> ""
        /\ req_n r = PInt n /\ 1 <= n <= 10
        /\ req_response_format r = PStr f /\ (f = "url" \/ f = "b64_json")
  | _ => True
  end.

(** The number of requests to the service in a piece of trace. *)
Fixpoint count_requests (evs : list event) : nat :=
  match evs with
  | [] => 0
  | EvGenerate _ :: evs' => S (count_requests evs')
  | _ :: evs' => count_requests evs'
  end.

Definition not_request (ev : event) : Prop :=
  match ev with EvGenerate _ => False | _ => True end.



(** The console accepts every message. *)
Definition console_ok (E : Env) : Prop :=
  forall w m, stdout_write E w m = inr tt.

(** A descriptor as the loop builds it. *)
Definition is_info (x : pyval) : Prop :=
  exists i d saved_path, x = PDict (image_info i d saved_path).

(** [a] is an initial part of the trace [b]. *)
Definition prefix_of (a b : world) : Prop := exists c, b = (a ++ c)%list.

(** A computation only appends to the trace, and what it appends
    satisfies [P]. *)
Definition emits {A} (P : event -> Prop) (m : M A) : Prop :=
  forall w, exists evs, snd (m w) = (w ++ evs)%list /\ Forall P evs.

(** The effects of handling one image: clock readings, downloads and
    file writes; no request to the service, no directory creation. *)
Definition local (ev : event) : Prop :=
  match ev with
  | EvNow | EvHttpGet _ _ | EvWrite _ _ => True
  | EvMkdir _ | EvGenerate _ | EvJsonDump _ _ => False
  end.


(** A computation never leaves through [sys.exit]. *)
Definition no_exit {A} (m : M A) : Prop :=
  forall w c, fst (m w) <> Exit c.

(** ** The monad *)

(* From here on [++] is list concatenation unless marked otherwise. *)
Open Scope list_scope.

Lemma prefix_of_refl w : prefix_of w w.
Proof. exists []. now rewrite app_nil_r. Qed.

Lemma prefix_of_trans a b c : prefix_of a b -> prefix_of b c -> prefix_of a c.
Proof.
  intros [x ->] [y ->]. exists (x ++ y)%list. now rewrite app_assoc.
Qed.

Lemma prefix_of_app w evs : prefix_of w (w ++ evs).
Proof. now exists evs. Qed.

Create HintDb py.
#[local] Hint Resolve prefix_of_refl prefix_of_app : py.

Lemma emits_prefix {A} P (m : M A) w :
  emits P m -> prefix_of w (snd (m w)).
Proof. intros H. destruct (H w) as (evs & -> & _). now exists evs. Qed.

Lemma emits_ret {A} P (a : A) : emits P (ret a).
Proof. intro w. exists []. simpl. now rewrite app_nil_r. Qed.

Lemma emits_raise {A} P e : emits P (@raise A e).
Proof. intro w. exists []. simpl. now rewrite app_nil_r. Qed.

Lemma emits_of_sum {A} P (r : exn + A) : emits P (of_sum r).
Proof. destruct r; [apply emits_raise | apply emits_ret]. Qed.

Lemma emits_call {A} (P : event -> Prop) ev (o : world -> exn + A) :
  P ev -> emits P (call ev o).
Proof.
  intros H w. exists [ev]. unfold call. destruct (o w); simpl; auto.
Qed.

Lemma emits_now (P : event -> Prop) E : P EvNow -> emits P (now E).
Proof. intros H w. exists [EvNow]. simpl. auto. Qed.

Lemma emits_bind {A B} P (m : M A) (f : A -> M B) :
  emits P m -> (forall a, emits P (f a)) -> emits P (bind m f).
Proof.
  intros Hm Hf w. unfold bind. destruct (Hm w) as (evs & H1 & H2).
  destruct (m w) as [[a | e | c] w1]; simpl in *; subst w1; eauto.
  destruct (Hf a (w ++ evs)) as (evs' & H3 & H4).
  exists (evs ++ evs'). rewrite H3, app_assoc. split; [reflexivity |].
  apply Forall_app; auto.
Qed.

Lemma emits_try_except {A} P (m : M A) (h : exn -> M A) :
  emits P m -> (forall e, emits P (h e)) -> emits P (try_except m h).
Proof.
  intros Hm Hh w. unfold try_except. destruct (Hm w) as (evs & H1 & H2).
  destruct (m w) as [[a | e | c] w1]; simpl in *; subst w1; eauto.
  destruct (Hh e (w ++ evs)) as (evs' & H3 & H4).
  exists (evs ++ evs'). rewrite H3, app_assoc. split; [reflexivity |].
  apply Forall_app; auto.
Qed.

Lemma no_exit_ret {A} (a : A) : no_exit (ret a).
Proof. intros w c. discriminate. Qed.

Lemma no_exit_raise {A} e : no_exit (@raise A e).
Proof. intros w c. discriminate. Qed.

Lemma no_exit_of_sum {A} (r : exn + A) : no_exit (of_sum r).
Proof. destruct r; [apply no_exit_raise | apply no_exit_ret]. Qed.

Lemma no_exit_call {A} ev (o : world -> exn + A) : no_exit (call ev o).
Proof. intros w c. unfold call. destruct (o w); discriminate. Qed.

Lemma no_exit_now E : no_exit (now E).
Proof. intros w c. discriminate. Qed.

Lemma no_exit_bind {A B} (m : M A) (f : A -> M B) :
  no_exit m -> (forall a, no_exit (f a)) -> no_exit (bind m f).
Proof.
  intros Hm Hf w c. unfold bind. specialize (Hm w).
  destruct (m w) as [[a | e | c'] w1]; simpl in *.
  - apply Hf.
  - discriminate.
  - exfalso. now apply (Hm c').
Qed.

Lemma no_exit_try_except {A} (m : M A) (h : exn -> M A) :
  no_exit m -> (forall e, no_exit (h e)) -> no_exit (try_except m h).
Proof.
  intros Hm Hh w c. unfold try_except. specialize (Hm w).
  destruct (m w) as [[a | e | c'] w1]; simpl in *.
  - discriminate.
  - apply Hh.
  - exfalso. now apply (Hm c').
Qed.


Ltac structure :=
  repeat match goal with
    | |- emits _ (bind _ _) => apply emits_bind
    | |- emits _ (try_except _ _) => apply emits_try_except
    | |- emits _ (ret _) => apply emits_ret
    | |- emits _ (raise _) => apply emits_raise
    | |- emits _ (of_sum _) => apply emits_of_sum
    | |- emits _ (call _ _) => apply emits_call; exact I
    | |- emits _ (now _) => apply emits_now; exact I
    | |- no_exit (bind _ _) => apply no_exit_bind
    | |- no_exit (try_except _ _) => apply no_exit_try_except
    | |- no_exit (ret _) => apply no_exit_ret
    | |- no_exit (raise _) => apply no_exit_raise
    | |- no_exit (of_sum _) => apply no_exit_of_sum
    | |- no_exit (call _ _) => apply no_exit_call
    | |- no_exit (now _) => apply no_exit_now
    | |- forall _, _ => intro
    end.

(** ** Strings *)

Lemma keep_char (c : ascii) :
  keep (PStr (String c EmptyString))
  = inr (if allowed c then Some (String c EmptyString) else None).
Proof.
  unfold keep, allowed, str_isalnum, all_alnum. simpl.
  rewrite andb_true_r.
  destruct (isalnum c), (Ascii.eqb c " "), (Ascii.eqb c "-"),
    (Ascii.eqb c "_"); reflexivity.
Qed.

Lemma join_kept_chars (s : string) :
  join_kept (chars_of s) = inr (str_filter allowed s).
Proof.
  induction s as [| c s IH]; [reflexivity |].
  cbn [chars_of join_kept str_filter]. rewrite keep_char, IH.
  destruct (allowed c); reflexivity.
Qed.

Lemma safe_prompt_str (p : string) :
  safe_prompt (PStr p)
  = inr (take 50 (replace_char " " "_" (rstrip (str_filter allowed p)))).
Proof. unfold safe_prompt. simpl. now rewrite join_kept_chars. Qed.

Lemma format_02d_length (index : Z) :
  0 <= index <= 99 -> String.length (format_02d index) = 2%nat.
Proof.
  intros H.
  assert (A : forallb (fun n => String.length (format_02d (Z.of_nat n)) =? 2)%nat
                (seq 0 100) = true) by (vm_compute; reflexivity).
  rewrite forallb_forall in A.
  specialize (A (Z.to_nat index)). rewrite Z2Nat.id in A by lia.
  apply Nat.eqb_eq, A, in_seq. lia.
Qed.



Lemma all_chars_app P (a b : string) :
  all_chars P (a ++ b)%string = all_chars P a && all_chars P b.
Proof.
  induction a as [| c a IH]; simpl; [reflexivity |].
  now rewrite IH, andb_assoc.
Qed.

Lemma all_chars_impl (P Q : ascii -> bool) s :
  (forall c, P c = true -> Q c = true) ->
  all_chars P s = true -> all_chars Q s = true.
Proof.
  intros H. induction s as [| c s IH]; simpl; [reflexivity |].
  rewrite !andb_true_iff. intros [A B]. auto.
Qed.

Lemma all_chars_take P n s :
  all_chars P s = true -> all_chars P (take n s) = true.
Proof.
  revert s. induction n as [| n IH]; intros [| c s]; simpl; auto.
  rewrite !andb_true_iff. intros [A B]. auto.
Qed.

Lemma all_chars_rstrip P s :
  all_chars P s = true -> all_chars P (rstrip s) = true.
Proof.
  induction s as [| c s IH]; simpl; [reflexivity |].
  rewrite andb_true_iff. intros [A B]. specialize (IH B).
  destruct (rstrip s) as [| c' r].
  - destruct (isspace c); simpl; [reflexivity | now rewrite A].
  - change (P c && all_chars P (String c' r) = true). now rewrite A.
Qed.

Lemma all_chars_str_filter f s : all_chars f (str_filter f s) = true.
Proof.
  induction s as [| c s IH]; simpl; [reflexivity |].
  destruct (f c) eqn:Hc; simpl; [now rewrite Hc |]; exact IH.
Qed.

Lemma all_chars_replace_space s :
  all_chars allowed s = true ->
  all_chars safe_char (replace_char " " "_" s) = true.
Proof.
  induction s as [| c s IH]; simpl; [reflexivity |].
  rewrite !andb_true_iff. intros [A B]. split; [| auto].
  destruct (Ascii.eqb c " ") eqn:Hc; [reflexivity |].
  unfold allowed in A. unfold safe_char. rewrite Hc, orb_false_r in A.
  exact A.
Qed.

(** The cleaned prompt consists of alphanumeric characters, hyphens and
    underscores. *)
Lemma all_chars_stem p :
  all_chars safe_char
    (take 50 (replace_char " " "_" (rstrip (str_filter allowed p)))) = true.
Proof.
  apply all_chars_take, all_chars_replace_space, all_chars_rstrip,
    all_chars_str_filter.
Qed.

Lemma is_digit_of_nat n : is_digit (ascii_of_nat (48 + n mod 10)) = true.
Proof.
  assert (H : (n mod 10 < 10)%nat) by (apply Nat.mod_upper_bound; lia).
  destruct (n mod 10)%nat as [| k]; [reflexivity |].
  do 9 (destruct k as [| k]; [reflexivity |]). lia.
Qed.

Lemma all_chars_digits_fuel fuel :
  forall n acc,
    all_chars is_digit acc = true ->
    all_chars is_digit (digits_fuel fuel n acc) = true.
Proof.
  induction fuel as [| f IH]; intros n acc H; simpl; [exact H |].
  assert (A : all_chars is_digit
                (String (ascii_of_nat (48 + n mod 10)) acc) = true).
  { change (is_digit (ascii_of_nat (48 + n mod 10))
            && all_chars is_digit acc = true).
    now rewrite is_digit_of_nat, H. }
  destruct (n <? 10)%nat; [exact A | apply IH, A].
Qed.

Lemma all_chars_str_of_nat n : all_chars is_digit (str_of_nat n) = true.
Proof. now apply all_chars_digits_fuel. Qed.

Lemma all_chars_zeros P k : P "0"%char = true -> all_chars P (zeros k) = true.
Proof. intros H. induction k; simpl; [reflexivity | now rewrite H]. Qed.

Lemma all_chars_zfill P width s :
  P "0"%char = true -> all_chars P s = true ->
  all_chars P (zfill width s) = true.
Proof.
  intros H0 H. unfold zfill. now rewrite all_chars_app, all_chars_zeros, H.
Qed.

Lemma is_digit_safe c : is_digit c = true -> safe_char c = true.
Proof.
  unfold is_digit, safe_char, isalnum. intros ->. reflexivity.
Qed.

Lemma safe_name_char c : safe_char c = true -> name_char c = true.
Proof. unfold name_char. intros ->. reflexivity. Qed.

Lemma all_chars_padded P width n :
  (forall c, is_digit c = true -> P c = true) ->
  all_chars P (zfill width (str_of_nat n)) = true.
Proof.
  intros H. apply all_chars_zfill; [now apply H |].
  apply (all_chars_impl is_digit); [exact H | apply all_chars_str_of_nat].
Qed.

Lemma all_chars_strftime t : all_chars safe_char (strftime t) = true.
Proof.
  unfold strftime.
  rewrite !all_chars_app, !(all_chars_padded safe_char) by apply is_digit_safe.
  reflexivity.
Qed.

Lemma all_chars_format_02d index : all_chars safe_char (format_02d index) = true.
Proof.
  unfold format_02d, str_of_Z. apply all_chars_zfill; [reflexivity |].
  destruct (index <? 0)%Z.
  - rewrite all_chars_app. simpl.
    apply (all_chars_impl is_digit);
      [apply is_digit_safe | apply all_chars_str_of_nat].
  - apply (all_chars_impl is_digit);
      [apply is_digit_safe | apply all_chars_str_of_nat].
Qed.

(** The file name built for a text prompt has only letters, digits,
    hyphens, underscores and dots. *)
Lemma all_chars_filename p t index :
  all_chars name_char
    (take 50 (replace_char " " "_" (rstrip (str_filter allowed p)))
     ++ "_" ++ strftime t ++ "_" ++ format_02d index ++ ".jpg")%string = true.
Proof.
  rewrite !all_chars_app.
  rewrite (all_chars_impl safe_char name_char _ safe_name_char
             (all_chars_stem p)).
  rewrite (all_chars_impl safe_char name_char _ safe_name_char
             (all_chars_strftime t)).
  rewrite (all_chars_impl safe_char name_char _ safe_name_char
             (all_chars_format_02d index)).
  reflexivity.
Qed.

Lemma name_char_not_slash c : name_char c = true -> Ascii.eqb c "/" = false.
Proof.
  intros H. destruct (Ascii.eqb_spec c "/") as [-> |]; [| reflexivity].
  discriminate H.
Qed.

Lemma split_slash_single name :
  all_chars (fun c => negb (Ascii.eqb c "/")) name = true ->
  split_slash name = [name].
Proof.
  induction name as [| c name IH]; simpl; [reflexivity |].
  rewrite andb_true_iff, negb_true_iff. intros [-> B]. now rewrite IH.
Qed.

(** Joining a directory and a name that is one plain component. *)
Lemma path_div_single directory name :
  all_chars (fun c => negb (Ascii.eqb c "/")) name = true ->
  name <> "" -> name <> "." ->
  path_div directory name = (directory ++ "/" ++ name)%string.
Proof.
  intros H H1 H2. unfold path_div, path_parts.
  rewrite (split_slash_single name H).
  assert (P : startswith name "/" = false).
  { destruct name as [| c name]; [reflexivity |]. simpl in *.
    apply andb_true_iff in H. destruct H as [H _].
    apply negb_true_iff in H. now rewrite H. }
  rewrite P. simpl.
  apply String.eqb_neq in H1. apply String.eqb_neq in H2.
  now rewrite H1, H2.
Qed.

Lemma underscore_name_proper (stem rest : string) :
  (stem ++ "_" ++ rest)%string <> ""
  /\ (stem ++ "_" ++ rest)%string <> ".".
Proof.
  destruct stem as [| c [| c' stem]]; simpl; split; discriminate.
Qed.

Lemma safe_char_allowed c : safe_char c = true -> allowed c = true.
Proof.
  unfold safe_char, allowed.
  destruct (isalnum c), (Ascii.eqb c " "), (Ascii.eqb c "-"),
    (Ascii.eqb c "_"); auto.
Qed.

Lemma safe_char_not_space c :
  safe_char c = true -> isspace c = false /\ Ascii.eqb c " " = false.
Proof.
  destruct c as [[] [] [] [] [] [] [] []]; intros H;
    first [discriminate H | split; reflexivity].
Qed.

Lemma str_filter_id f s : all_chars f s = true -> str_filter f s = s.
Proof.
  induction s as [| c s IH]; simpl; [reflexivity |].
  rewrite andb_true_iff. intros [-> B]. now rewrite IH.
Qed.

Lemma rstrip_id s : all_chars safe_char s = true -> rstrip s = s.
Proof.
  induction s as [| c s IH]; simpl; [reflexivity |].
  rewrite andb_true_iff. intros [A B]. rewrite (IH B).
  destruct s; [| reflexivity].
  now rewrite (proj1 (safe_char_not_space c A)).
Qed.

Lemma replace_space_id s :
  all_chars safe_char s = true -> replace_char " " "_" s = s.
Proof.
  induction s as [| c s IH]; simpl; [reflexivity |].
  rewrite andb_true_iff. intros [A B].
  now rewrite (IH B), (proj2 (safe_char_not_space c A)).
Qed.

Lemma take_id n s : (String.length s <= n)%nat -> take n s = s.
Proof.
  revert s. induction n as [| n IH]; intros [| c s]; simpl; intros H;
    try reflexivity; try lia.
  rewrite IH; [reflexivity | lia].
Qed.

Lemma code_digit n : (code (ascii_of_nat (48 + n mod 10)) - 48 = n mod 10)%nat.
Proof.
  assert (H : (n mod 10 < 10)%nat) by (apply Nat.mod_upper_bound; lia).
  unfold code. rewrite nat_ascii_embedding by lia. lia.
Qed.

Lemma value_digits_fuel fuel :
  forall n acc,
    (n < fuel)%nat ->
    value_aux 0 (digits_fuel fuel n acc) = value_aux n acc.
Proof.
  induction fuel as [| f IH]; intros n acc H; [lia |].
  cbn [digits_fuel]. cbv zeta.
  destruct (Nat.ltb_spec n 10) as [L | L].
  - cbn [value_aux]. rewrite code_digit, Nat.mod_small by lia.
    reflexivity.
  - assert (D : (n / 10 < n)%nat) by (apply Nat.div_lt; lia).
    rewrite IH by lia. cbn [value_aux]. rewrite code_digit.
    f_equal. rewrite (Nat.div_mod_eq n 10) at 3. lia.
Qed.

Lemma value_str_of_nat n : value_aux 0 (str_of_nat n) = n.
Proof. unfold str_of_nat. rewrite value_digits_fuel by lia. reflexivity. Qed.

Lemma digits_fuel_nonempty fuel :
  forall n acc, acc <> "" -> digits_fuel fuel n acc <> "".
Proof.
  induction fuel as [| f IH]; intros n acc H; simpl; [exact H |].
  destruct (n <? 10)%nat; [discriminate | apply IH; discriminate].
Qed.

(** A printed number starts with a digit. *)
Lemma str_of_nat_head n :
  exists c r, str_of_nat n = String c r /\ is_digit c = true.
Proof.
  assert (A := all_chars_str_of_nat n).
  assert (B : str_of_nat n <> "").
  { unfold str_of_nat. simpl. destruct (n <? 10)%nat; [discriminate |].
    apply digits_fuel_nonempty. discriminate. }
  destruct (str_of_nat n) as [| c r]; [contradiction |].
  simpl in A. apply andb_true_iff in A. exists c, r. tauto.
Qed.

Lemma is_digit_not_minus c : is_digit c = true -> Ascii.eqb c "-" = false.
Proof.
  intros H. destruct (Ascii.eqb_spec c "-") as [-> |]; [| reflexivity].
  discriminate H.
Qed.

(** The index field can be read back: [format_02d] loses nothing. *)
Lemma read_format_02d index : read_02d (format_02d index) = index.
Proof.
  unfold format_02d, str_of_Z.
  destruct (Z.ltb_spec index 0) as [L | L].
  - destruct (str_of_nat_head (Z.to_nat (- index))) as (c & r & Hs & Hc).
    assert (V := value_str_of_nat (Z.to_nat (- index))).
    rewrite Hs in *. unfold zfill. simpl in V |- *. rewrite V. lia.
  - destruct (str_of_nat_head (Z.to_nat index)) as (c & r & Hs & Hc).
    assert (V := value_str_of_nat (Z.to_nat index)).
    rewrite Hs in *. unfold zfill.
    destruct r as [| c' r']; simpl in V |- *.
    + lia.
    + rewrite (is_digit_not_minus c Hc), V. lia.
Qed.

Lemma append_inv_head (a x y : string) :
  (a ++ x)%string = (a ++ y)%string -> x = y.
Proof.
  induction a as [| c a IH]; simpl; intros H; [exact H |].
  injection H as H. auto.
Qed.

Lemma length_append (a b : string) :
  String.length (a ++ b)%string = (String.length a + String.length b)%nat.
Proof. induction a as [| c a IH]; simpl; auto. Qed.

Lemma append_inv_tail (s : string) :
  forall x y, (x ++ s)%string = (y ++ s)%string -> x = y.
Proof.
  induction x as [| c x IH]; intros [| c' y] H; simpl in H.
  - reflexivity.
  - apply (f_equal String.length) in H. simpl in H.
    rewrite length_append in H. lia.
  - apply (f_equal String.length) in H. simpl in H.
    rewrite length_append in H. lia.
  - injection H as -> H. f_equal. auto.
Qed.

Lemma length_take n s : (String.length (take n s) <= n)%nat.
Proof.
  revert s. induction n as [| n IH]; intros [| c s]; simpl; try lia.
  specialize (IH s). lia.
Qed.

(** ** The pipeline, step by step *)

Section Pipeline.
Variable E : Env.
Variable self : generator.

Lemma generate_filename_str p index w :
  _generate_filename E self (PStr p) index "jpg" w
  = (Ret (filename_spec (output_dir self) p index (datetime_now E w)),
     w ++ [EvNow]).
Proof.
  unfold _generate_filename, bind, of_sum. rewrite safe_prompt_str.
  simpl. unfold filename_spec.
  destruct (underscore_name_proper
              (take 50 (replace_char " " "_" (rstrip (str_filter allowed p))))
              (strftime (datetime_now E w) ++ "_" ++ format_02d index
               ++ ".jpg")%string) as [N1 N2].
  rewrite path_div_single; [reflexivity | | exact N1 | exact N2].
  apply (all_chars_impl name_char).
  - intros c H. now rewrite (name_char_not_slash c H).
  - apply all_chars_filename.
Qed.





Lemma emits_generate_filename prompt index ext :
  emits local (_generate_filename E self prompt index ext).
Proof. unfold _generate_filename. structure. Qed.

Lemma no_exit_generate_filename prompt index ext :
  no_exit (_generate_filename E self prompt index ext).
Proof. unfold _generate_filename. structure. Qed.

Lemma emits_save_image_from_url u f :
  emits local (save_image_from_url E u f).
Proof. unfold save_image_from_url. structure. Qed.


Lemma emits_save_image_from_b64 b f :
  emits local (save_image_from_b64 E b f).
Proof.
  unfold save_image_from_b64. structure.
  destruct (startswith b "data:image"); [destruct (after_first "," b) |];
    structure.
Qed.


Lemma emits_image_step prompt fmt save i d :
  emits local (image_step E self prompt fmt save i d).
Proof.
  unfold image_step.
  destruct (truthy save); [| structure].
  destruct (py_eq_str fmt "url"), (nonempty (url d));
    destruct (py_eq_str fmt "b64_json"), (nonempty (b64_json d));
    structure;
    first [ apply emits_generate_filename
          | apply emits_save_image_from_url
          | apply emits_save_image_from_b64 ].
Qed.


Lemma emits_images_loop prompt fmt save data :
  forall i, emits local (images_loop E self prompt fmt save i data).
Proof.
  induction data as [| d rest IH]; intro i; simpl; structure.
  - apply emits_image_step.
  - apply IH.
Qed.


Lemma image_step_shape prompt fmt save i d w info w' :
  image_step E self prompt fmt save i d w = (Ret info, w') ->
  exists sp, info = PDict (image_info i d sp)
             /\ (sp = PNone \/ exists f, sp = PStr f).
Proof.
  unfold image_step. intros H.
  destruct (truthy save);
    [| inversion H; eexists; split; [reflexivity | now left]].
  destruct (py_eq_str fmt "url"), (nonempty (url d)) as [u |];
    destruct (py_eq_str fmt "b64_json"), (nonempty (b64_json d)) as [b |];
    unfold bind in H;
    try (inversion H; eexists; split; [reflexivity | now left]).
  all: destruct (_generate_filename E self prompt (i + 1) "jpg" w)
         as [[f | e | c] w1]; try discriminate.
  all: match type of H with
       | context [save_image_from_url E ?u ?f ?w] =>
           destruct (save_image_from_url E u f w) as [[ok | e | c] w2]
       | context [save_image_from_b64 E ?b ?f ?w] =>
           destruct (save_image_from_b64 E b f w) as [[ok | e | c] w2]
       end; try discriminate.
  all: destruct ok; inversion H; eexists;
    (split; [reflexivity | first [now left | right; eauto]]).
Qed.

(** With persistence off, or a format that is neither ["url"] nor
    ["b64_json"], a loop iteration touches nothing. *)
Lemma image_step_unsaved prompt fmt save i d w :
  truthy save = false
  \/ (py_eq_str fmt "url" = false /\ py_eq_str fmt "b64_json" = false) ->
  image_step E self prompt fmt save i d w
  = (Ret (PDict (image_info i d PNone)), w).
Proof.
  unfold image_step. intros [-> | [-> ->]]; [reflexivity |].
  destruct (truthy save); reflexivity.
Qed.

Lemma images_loop_unsaved prompt fmt save data :
  truthy save = false
  \/ (py_eq_str fmt "url" = false /\ py_eq_str fmt "b64_json" = false) ->
  forall i w,
    images_loop E self prompt fmt save i data w
    = (Ret (unsaved_infos i data), w).
Proof.
  intros H. induction data as [| d rest IH]; intros i w; [reflexivity |].
  simpl. unfold bind. now rewrite image_step_unsaved, IH.
Qed.

(** The loop visits the images in order: the entry at position [k] is
    what the loop body returned for the image at position [k], run at
    some point of the trace between the start and the end of the loop. *)
Lemma images_loop_nth prompt fmt save data :
  forall i w imgs w',
    images_loop E self prompt fmt save i data w = (Ret imgs, w') ->
    List.length imgs = List.length data
    /\ forall k d, nth_error data k = Some d ->
         exists wk info wk',
           prefix_of w wk
           /\ image_step E self prompt fmt save (i + Z.of_nat k) d wk
              = (Ret info, wk')
           /\ prefix_of wk' w'
           /\ nth_error imgs k = Some info.
Proof.
  induction data as [| d0 rest IH]; intros i w imgs w' H.
  - inversion H. split; [reflexivity |]. intros [| k] d Hk; discriminate.
  - simpl in H. unfold bind in H.
    destruct (image_step E self prompt fmt save i d0 w)
      as [[info | e | c] w1] eqn:Hs; try discriminate.
    destruct (images_loop E self prompt fmt save (i + 1) rest w1)
      as [[infos | e | c] w2] eqn:Hl; try discriminate.
    inversion H; subst imgs w'. clear H.
    destruct (IH _ _ _ _ Hl) as [Hlen Hnth].
    assert (P1 : prefix_of w w1).
    { generalize (emits_prefix _ _ w (emits_image_step prompt fmt save i d0)).
      now rewrite Hs. }
    assert (P2 : prefix_of w1 w2).
    { generalize
        (emits_prefix _ _ w1 (emits_images_loop prompt fmt save rest (i + 1))).
      now rewrite Hl. }
    split; [simpl; now rewrite Hlen |].
    intros [| k] d Hk; simpl in Hk.
    + inversion Hk; subst d. exists w, info, w1.
      rewrite Z.add_0_r. auto with py.
    + destruct (Hnth k d Hk) as (wk & info' & wk' & Q1 & Q2 & Q3 & Q4).
      exists wk, info', wk'. repeat split; auto.
      * eapply prefix_of_trans; eauto.
      * replace (i + Z.of_nat (S k)) with (i + 1 + Z.of_nat k) by lia.
        exact Q2.
Qed.

(** [generate_images], one case per way the call can go. *)
Lemma generate_images_run prompt count fmt save w :
  generate_images E self prompt count fmt save w
  = let r := generate_request self prompt count fmt in
    let w1 := w ++ [EvGenerate r] in
    match images_generate E w r with
    | inl e => (Ret (error_result e prompt), w1)
    | inr None => (Ret (error_result no_len prompt), w1)
    | inr (Some data) =>
        match images_loop E self prompt fmt save 0 data (w1 ++ [EvNow]) with
        | (Ret images, w2) =>
            (Ret (success_result prompt data images (datetime_now E w1)), w2)
        | (Raise e, w2) => (Ret (error_result e prompt), w2)
        | (Exit c, w2) => (Exit c, w2)
        end
    end.
Proof.
  unfold generate_images, try_except, bind, call, now, ret, raise. simpl.
  destruct (images_generate E w (generate_request self prompt count fmt))
    as [e | [data |]]; try reflexivity.
  destruct (images_loop E self prompt fmt save 0 data _)
    as [[images | e | c] w2]; reflexivity.
Qed.









(** One call issues one request to the service, first of all, with the
    arguments as they were passed; everything after it is local. *)
Lemma generate_images_events prompt count fmt save w :
  exists o evs,
    generate_images E self prompt count fmt save w
    = (o, w ++ EvGenerate (generate_request self prompt count fmt) :: evs)
    /\ Forall local evs.
Proof.
  rewrite generate_images_run. cbv zeta.
  destruct (images_generate E w (generate_request self prompt count fmt))
    as [e | [data |]].
  1, 3: eexists _, []; split; [reflexivity | constructor].
  match goal with
  | |- context [images_loop E self prompt fmt save 0 data ?w1] =>
      destruct (emits_images_loop prompt fmt save data 0 w1)
        as (evs & H1 & H2);
      destruct (images_loop E self prompt fmt save 0 data w1)
        as [[images | e | c] w2]
  end; simpl in H1; subst w2;
    eexists _, (EvNow :: evs); rewrite <- !app_assoc;
    (split; [reflexivity | constructor; [exact I | assumption]]).
Qed.


End Pipeline.

Lemma init_output_dir (E : Env) key w g w' :
  __init__ E key w = (Ret g, w') -> output_dir g = "generated_images".
Proof.
  unfold __init__, bind, call, ret, sys_exit. intros H.
  destruct (or_str key embedded_key =? placeholder_key).
  - destruct (getenv E "XAI_API_KEY") as [k |]; [| discriminate].
    destruct (k =? ""); [discriminate |].
    destruct (mkdir E w "generated_images"); inversion H; reflexivity.
  - destruct (mkdir E w "generated_images"); inversion H; reflexivity.
Qed.

Lemma unsaved_infos_saved_path data :
  forall i x, In x (unsaved_infos i data) ->
    exists info, x = PDict info /\ dict_lookup info "saved_path" = Some PNone.
Proof.
  induction data as [| d rest IH]; intros i x H; simpl in H; [contradiction |].
  destruct H as [<- | H]; [| eauto].
  eexists. split; reflexivity.
Qed.

(** [__init__] without a key. *)
Lemma init_none_run (E : Env) (w : world) :
  __init__ E None w
  = match mkdir E w "generated_images" with
    | inr _ =>
        (Ret {| api_key := embedded_key;
                base_url := "https://api.x.ai/v1";
                output_dir := "generated_images" |},
         w ++ [EvMkdir "generated_images"])
    | inl e => (Raise e, w ++ [EvMkdir "generated_images"])
    end.
Proof.
  unfold __init__, or_str.
  change (embedded_key =? placeholder_key) with false.
  unfold bind, call, ret. destruct (mkdir E w "generated_images"); reflexivity.
Qed.

(** ** Downloads and writes per image *)






(** ** The session log and the interactive loop *)

Lemma save_session_log_default_run (E : Env) (self : generator)
    (results : list dict) (filename : option string) (w : world) :
  nonempty filename = None ->
  let path := (output_dir self ++ "/session_log_"
               ++ strftime (datetime_now E w) ++ ".json")%string in
  let value := PList (map PDict results) in
  save_session_log E self results filename w
  = match json_dump E (w ++ [EvNow]) path value with
    | inr _ => (Ret tt, w ++ [EvNow; EvJsonDump path value])
    | inl e => (Raise e, w ++ [EvNow; EvJsonDump path value])
    end.
Proof.
  intros H path value. unfold save_session_log, bind, now, ret, call.
  rewrite H.
  assert (P : path_div (output_dir self)
                ("session_log_" ++ strftime (datetime_now E w) ++ ".json")
              = path).
  { rewrite path_div_single; [reflexivity | | discriminate | discriminate].
    apply (all_chars_impl name_char).
    - intros c Hc. now rewrite (name_char_not_slash c Hc).
    - rewrite !all_chars_app.
      rewrite (all_chars_impl safe_char name_char _ safe_name_char
                 (all_chars_strftime (datetime_now E w))).
      reflexivity. }
  rewrite P. fold value.
  destruct (json_dump E (w ++ [EvNow]) path value) as [e | []];
    rewrite <- app_assoc; reflexivity.
Qed.

Lemma emits_weaken {A} (P Q : event -> Prop) (m : M A) :
  (forall ev, P ev -> Q ev) -> emits P m -> emits Q m.
Proof.
  intros H Hm w. destruct (Hm w) as (evs & H1 & H2).
  exists evs. split; [exact H1 |]. eapply Forall_impl; eauto.
Qed.

Lemma emits_generate_images (P : event -> Prop) E self prompt count fmt save :
  P (EvGenerate (generate_request self prompt count fmt)) ->
  (forall ev, local ev -> P ev) ->
  emits P (generate_images E self prompt count fmt save).
Proof.
  intros H1 H2 w.
  destruct (generate_images_events E self prompt count fmt save w)
    as (o & evs & Hg & Hl).
  eexists. rewrite Hg. split; [reflexivity |].
  constructor; [exact H1 |]. eapply Forall_impl; eauto.
Qed.

Lemma emits_save_session_log (P : event -> Prop) E self results filename :
  P EvNow -> (forall path v, P (EvJsonDump path v)) ->
  emits P (save_session_log E self results filename).
Proof.
  intros H1 H2. unfold save_session_log.
  apply emits_bind.
  - destruct (nonempty filename).
    + apply emits_ret.
    + apply emits_bind; [now apply emits_now | intro; apply emits_ret].
  - intro. apply emits_call. apply H2.
Qed.

Lemma emits_init (P : event -> Prop) E key :
  (forall path, P (EvMkdir path)) -> emits P (__init__ E key).
Proof.
  intros H. unfold __init__.
  apply emits_bind.
  - destruct (or_str key embedded_key =? placeholder_key);
      [| apply emits_ret].
    destruct (getenv E "XAI_API_KEY") as [k |];
      [destruct (k =? "") |]; try apply emits_ret;
      intro w; exists []; simpl; now rewrite app_nil_r.
  - intro. apply emits_bind; [apply emits_call, H | intro; apply emits_ret].
Qed.

Lemma interactive_count_range (E : Env) (line : string) :
  1 <= interactive_count E line <= 10.
Proof.
  unfold interactive_count.
  destruct (int_of_str E (if line =? "" then "1" else line)); lia.
Qed.

Lemma emits_interactive_loop (E : Env) (g : generator) :
  forall n lines session,
    (List.length lines <= n)%nat ->
    emits interactive_event (interactive_loop E g lines session).
Proof.
  induction n as [| n IH]; intros lines session Hn.
  - destruct lines; [apply emits_raise | simpl in Hn; lia].
  - destruct lines as [| line rest]; [apply emits_raise |].
    simpl in Hn. cbn [interactive_loop].
    destruct (strip line =? "1").
    { destruct rest as [| pl rest1]; [apply emits_raise |].
      simpl in Hn.
      destruct (strip pl =? "") eqn:Hp; [apply IH; lia |].
      destruct rest1 as [| cl rest2]; [apply emits_raise |].
      destruct rest2 as [| fl rest3]; [apply emits_raise |].
      simpl in Hn.
      apply emits_bind; [| intro; apply IH; lia].
      apply emits_generate_images.
      - simpl. eexists _, _, _.
        repeat split; try reflexivity.
        + now apply String.eqb_neq.
        + apply interactive_count_range.
        + apply interactive_count_range.
        + destruct (lower (strip fl) =? "b64"); auto.
      - intros [] H; simpl in *; auto; contradiction. }
    destruct (strip line =? "2"); [apply IH; lia |].
    destruct (strip line =? "3").
    { destruct session; [apply IH; lia |].
      apply emits_bind; [| intro; apply IH; lia].
      apply emits_save_session_log; simpl; auto. }
    destruct (strip line =? "4"); [| apply IH; lia].
    destruct session; [apply emits_ret |].
    destruct rest as [| sl rest']; [apply emits_raise |].
    destruct (lower (strip sl) =? "y"); [| apply emits_ret].
    apply emits_bind; [| intro; apply emits_ret].
    apply emits_save_session_log; simpl; auto.
Qed.

Lemma count_requests_app a b :
  count_requests (a ++ b) = (count_requests a + count_requests b)%nat.
Proof.
  induction a as [| [] a IH]; simpl; auto.
Qed.

Lemma count_requests_none evs :
  Forall not_request evs -> count_requests evs = 0%nat.
Proof.
  induction 1 as [| ev evs H _ IH]; [reflexivity |].
  destruct ev; simpl in *; auto; contradiction.
Qed.

Lemma local_not_request ev : local ev -> not_request ev.
Proof. destruct ev; simpl; auto. Qed.

(** The loop of interactive mode keeps what the session held and adds
    one record per request sent. *)
Lemma interactive_loop_records (E : Env) (g : generator) :
  forall n lines session w final w',
    (List.length lines <= n)%nat ->
    interactive_loop E g lines session w = (Ret final, w') ->
    exists added evs,
      final = session ++ added /\ w' = w ++ evs
      /\ List.length added = count_requests evs.
Proof.
  assert (Done : forall (session : list dict) (w : world),
            exists added evs,
              session = session ++ added /\ w = w ++ evs
              /\ List.length added = count_requests evs).
  { intros. exists [], []. now rewrite !app_nil_r. }
  induction n as [| n IH]; intros lines session w final w' Hn H.
  - destruct lines; [discriminate H | simpl in Hn; lia].
  - destruct lines as [| line rest]; [discriminate H |].
    simpl in Hn. cbn [interactive_loop] in H.
    destruct (strip line =? "1").
    { destruct rest as [| pl rest1]; [discriminate H |].
      simpl in Hn.
      destruct (strip pl =? ""); [eapply IH; [| exact H]; lia |].
      destruct rest1 as [| cl rest2]; [discriminate H |].
      destruct rest2 as [| fl rest3]; [discriminate H |].
      simpl in Hn. unfold bind in H.
      match type of H with
      | context [generate_images E g ?a ?b ?c ?d w] =>
          destruct (generate_images_events E g a b c d w)
            as (o & evs1 & Hg & Hl);
          rewrite Hg in H
      end.
      destruct o as [r | e | c]; try discriminate H.
      apply IH in H; [| lia].
      destruct H as (added & evs & -> & -> & Hc).
      exists (r :: added), (EvGenerate
        (generate_request g (PStr (strip pl)) (PInt (interactive_count E cl))
           (PStr (if lower (strip fl) =? "b64" then "b64_json" else "url")))
        :: evs1 ++ evs).
      rewrite <- !app_assoc. simpl. repeat split.
      rewrite count_requests_app, Hc.
      rewrite (count_requests_none evs1); [reflexivity |].
      eapply Forall_impl; [apply local_not_request | exact Hl]. }
    destruct (strip line =? "2"); [eapply IH; [| exact H]; lia |].
    assert (Save : forall k : unit -> M (list dict),
              (forall w1,
                 k tt w1 = (Ret final, w') ->
                 exists added evs,
                   final = session ++ added /\ w' = w1 ++ evs
                   /\ List.length added = count_requests evs) ->
              bind (save_session_log E g session None) k w = (Ret final, w') ->
              exists added evs,
                final = session ++ added /\ w' = w ++ evs
                /\ List.length added = count_requests evs).
    { intros k Hk Hb. unfold bind in Hb.
      destruct (emits_save_session_log not_request E g session None I
                  (fun _ _ => I) w) as (evsS & Hs & Hf).
      destruct (save_session_log E g session None w) as [[[] | e | c] w1];
        try discriminate Hb.
      simpl in Hs. subst w1.
      destruct (Hk _ Hb) as (added & evs & -> & -> & Hc).
      exists added, (evsS ++ evs). rewrite <- app_assoc.
      repeat split. rewrite count_requests_app, Hc.
      now rewrite (count_requests_none evsS Hf). }
    destruct (strip line =? "3").
    { destruct session as [| s0 session0]; [eapply IH; [| exact H]; lia |].
      apply (Save (fun _ => interactive_loop E g rest (s0 :: session0)));
        [| exact H].
      intros w1 Hk. eapply IH; [| exact Hk]. lia. }
    destruct (strip line =? "4"); [| eapply IH; [| exact H]; lia].
    destruct session as [| s0 session0]; [inversion H; apply Done |].
    destruct rest as [| sl rest']; [discriminate H |].
    destruct (lower (strip sl) =? "y"); [| inversion H; apply Done].
    apply (Save (fun _ => ret (s0 :: session0))); [| exact H].
    intros w1 Hk. inversion Hk. apply Done.
Qed.

(** ** Console output *)

Lemma print_ok (E : Env) m w : console_ok E -> print E m w = (Ret tt, w).
Proof. intros H. unfold print. now rewrite H. Qed.

Lemma no_exit_print (E : Env) m : no_exit (print E m).
Proof. intros w c. unfold print. destruct (stdout_write E w m); discriminate. Qed.

Lemma no_exit_sum_bind {A B} (r : exn + A) (f : A -> M B) :
  (forall a, no_exit (f a)) -> no_exit (bind (of_sum r) f).
Proof. intros H. apply no_exit_bind; [apply no_exit_of_sum | exact H]. Qed.

Ltac console_structure :=
  repeat first
    [ progress structure
    | apply no_exit_print
    | apply no_exit_generate_filename
    | match goal with
      | |- no_exit (if ?b then _ else _) => destruct b
      | |- no_exit (match ?x with _ => _ end) => destruct x
      end ].

Lemma no_exit_console_save_image_from_url (E : Env) u f :
  no_exit (Console.save_image_from_url E u f).
Proof. unfold Console.save_image_from_url. console_structure. Qed.

Lemma no_exit_console_save_image_from_b64 (E : Env) b f :
  no_exit (Console.save_image_from_b64 E b f).
Proof.
  unfold Console.save_image_from_b64. console_structure.
Qed.

Lemma no_exit_console_image_step (E : Env) self prompt fmt save i d :
  no_exit (Console.image_step E self prompt fmt save i d).
Proof.
  unfold Console.image_step. cbv zeta.
  destruct (truthy save); [| structure].
  destruct (py_eq_str fmt "url"), (nonempty (url d));
    destruct (py_eq_str fmt "b64_json"), (nonempty (b64_json d));
    console_structure;
    first [ apply no_exit_console_save_image_from_url
          | apply no_exit_console_save_image_from_b64 ].
Qed.

Lemma no_exit_console_images_loop (E : Env) self prompt fmt save data :
  forall i, no_exit (Console.images_loop E self prompt fmt save i data).
Proof.
  induction data as [| d rest IH]; intro i; simpl; structure.
  - apply no_exit_console_image_step.
  - apply IH.
Qed.

Lemma no_exit_print_images (E : Env) images :
  no_exit (Console.print_images E images).
Proof.
  induction images as [| img rest IH]; simpl; console_structure; exact IH.
Qed.

Lemma no_exit_print_results (E : Env) result :
  no_exit (Console._print_results E result).
Proof.
  unfold Console._print_results. console_structure;
    apply no_exit_print_images.
Qed.

Lemma no_exit_console_generate_images_try (E : Env) self prompt count fmt
    save :
  no_exit (Console.generate_images_try E self prompt count fmt save).
Proof.
  unfold Console.generate_images_try. console_structure;
    first [ apply no_exit_console_images_loop | apply no_exit_print_results ].
Qed.

(** [Console.generate_images], one case per way the call can go. *)
Lemma console_generate_images_run (E : Env) self prompt count fmt save w :
  Console.generate_images E self prompt count fmt save w
  = match stdout_write E w (MsgGenerating count prompt) with
    | inl e => (Raise e, w)
    | inr _ =>
        match Console.generate_images_try E self prompt count fmt save w with
        | (Raise e, w1) =>
            match stdout_write E w1 (MsgErrorGenerating e) with
            | inl e' => (Raise e', w1)
            | inr _ => (Ret (error_result e prompt), w1)
            end
        | r => r
        end
    end.
Proof.
  unfold Console.generate_images. unfold bind at 1. unfold print at 1.
  destruct (stdout_write E w (MsgGenerating count prompt)); [reflexivity |].
  unfold try_except.
  destruct (Console.generate_images_try E self prompt count fmt save w)
    as [[r | e | c] w1]; try reflexivity.
  unfold bind, print.
  destruct (stdout_write E w1 (MsgErrorGenerating e)); reflexivity.
Qed.

(** After the first [print] the call returns a record, unless the
    [print] of the [except] branch raises. *)
Lemma console_generate_images_after_print (E : Env) self prompt count fmt
    save w :
  stdout_write E w (MsgGenerating count prompt) = inr tt ->
  (exists result w',
     Console.generate_images E self prompt count fmt save w
     = (Ret result, w'))
  \/ (exists e0 e w',
        Console.generate_images E self prompt count fmt save w = (Raise e, w')
        /\ stdout_write E w' (MsgErrorGenerating e0) = inl e).
Proof.
  intros H. rewrite console_generate_images_run, H.
  assert (N := no_exit_console_generate_images_try E self prompt count fmt
                 save w).
  destruct (Console.generate_images_try E self prompt count fmt save w)
    as [[r | e | c] w1].
  - left. eauto.
  - destruct (stdout_write E w1 (MsgErrorGenerating e)) as [e' | []] eqn:He.
    + right. exists e, e', w1. auto.
    + left. eauto.
  - exfalso. now apply (N c).
Qed.

Lemma no_exit_console_generate_images (E : Env) self prompt count fmt save :
  no_exit (Console.generate_images E self prompt count fmt save).
Proof.
  unfold Console.generate_images. console_structure.
  apply no_exit_console_generate_images_try.
Qed.

Lemma no_exit_console_init_none (E : Env) :
  no_exit (Console.__init__ E None).
Proof.
  unfold Console.__init__, or_str.
  change (embedded_key =? placeholder_key) with false.
  console_structure.
Qed.

(** When the console accepts every message the functions with console
    output are the functions without. *)
Section Quiet.
Variable E : Env.
Hypothesis quiet : console_ok E.

Lemma console_save_image_from_url_quiet u f w :
  Console.save_image_from_url E u f w = save_image_from_url E u f w.
Proof.
  unfold Console.save_image_from_url, save_image_from_url, try_except, bind,
    call, print, ret.
  destruct (requests_get E w u 30) as [e | content];
    rewrite ?quiet; [reflexivity |].
  destruct (write_file E (w ++ [EvHttpGet u 30]) f content);
    rewrite ?quiet; reflexivity.
Qed.

Lemma console_save_image_from_b64_quiet b f w :
  Console.save_image_from_b64 E b f w = save_image_from_b64 E b f w.
Proof.
  unfold Console.save_image_from_b64, save_image_from_b64, try_except, bind,
    call, print, of_sum, ret, raise.
  destruct (startswith b "data:image");
    [destruct (after_first "," b) as [rest |] |];
    rewrite ?quiet; try reflexivity.
  - destruct (b64decode E rest) as [e | content];
      rewrite ?quiet; [reflexivity |].
    destruct (write_file E w f content); rewrite ?quiet; reflexivity.
  - destruct (b64decode E b) as [e | content];
      rewrite ?quiet; [reflexivity |].
    destruct (write_file E w f content); rewrite ?quiet; reflexivity.
Qed.

Lemma console_image_step_quiet self prompt fmt save i d w :
  Console.image_step E self prompt fmt save i d w
  = image_step E self prompt fmt save i d w.
Proof.
  unfold Console.image_step, image_step. cbv zeta.
  destruct (truthy save); [| reflexivity].
  destruct (py_eq_str fmt "url"), (nonempty (url d));
    destruct (py_eq_str fmt "b64_json"), (nonempty (b64_json d));
    try reflexivity; unfold bind;
    destruct (_generate_filename E self prompt (i + 1) "jpg" w)
      as [[f | e | c] w1]; try reflexivity;
    rewrite ?console_save_image_from_url_quiet,
      ?console_save_image_from_b64_quiet; reflexivity.
Qed.

Lemma console_images_loop_quiet self prompt fmt save data :
  forall i w,
    Console.images_loop E self prompt fmt save i data w
    = images_loop E self prompt fmt save i data w.
Proof.
  induction data as [| d rest IH]; intros i w; [reflexivity |].
  simpl. unfold bind. rewrite console_image_step_quiet.
  destruct (image_step E self prompt fmt save i d w) as [[info | e | c] w1];
    try reflexivity.
  now rewrite IH.
Qed.

Lemma print_images_quiet images w :
  Forall is_info images -> Console.print_images E images w = (Ret tt, w).
Proof.
  induction 1 as [| x images (i & d & sp & ->) _ IH]; [reflexivity |].
  cbn [Console.print_images]. unfold bind, of_sum, print. simpl.
  rewrite !quiet.
  destruct (truthy (of_opt_str (url d))); rewrite ?quiet; simpl;
    destruct (truthy sp); rewrite ?quiet; simpl; exact IH.
Qed.

Lemma print_results_quiet prompt data images t w :
  Forall is_info images ->
  Console._print_results E (success_result prompt data images t) w
  = (Ret tt, w).
Proof.
  intros H. unfold Console._print_results, bind, of_sum, print. simpl.
  rewrite !quiet. now apply print_images_quiet.
Qed.

Lemma images_loop_infos self prompt fmt save data :
  forall i w images w',
    images_loop E self prompt fmt save i data w = (Ret images, w') ->
    Forall is_info images.
Proof.
  induction data as [| d rest IH]; intros i w images w' H; simpl in H.
  - inversion H. constructor.
  - unfold bind in H.
    destruct (image_step E self prompt fmt save i d w)
      as [[info | e | c] w1] eqn:Hs; try discriminate H.
    destruct (images_loop E self prompt fmt save (i + 1) rest w1)
      as [[infos | e | c] w2] eqn:Hl; try discriminate H.
    inversion H. constructor; [| eapply IH; exact Hl].
    destruct (image_step_shape E self _ _ _ _ _ _ _ _ Hs) as (sp & -> & _).
    now exists i, d, sp.
Qed.

Lemma console_generate_images_quiet self prompt count fmt save w :
  Console.generate_images E self prompt count fmt save w
  = generate_images E self prompt count fmt save w.
Proof.
  rewrite generate_images_run, console_generate_images_run. cbv zeta.
  rewrite !quiet.
  unfold Console.generate_images_try. cbv zeta.
  unfold bind at 1. unfold call.
  destruct (images_generate E w (generate_request self prompt count fmt))
    as [e | [data |]].
  - now rewrite quiet.
  - unfold bind at 1. unfold ret at 1. unfold bind at 1. unfold now at 1.
    unfold bind at 1. rewrite console_images_loop_quiet.
    destruct (images_loop E self prompt fmt save 0 data _)
      as [[images | e | c] w2] eqn:Hl.
    + unfold bind.
      rewrite (print_results_quiet _ _ _ _ _
                 (images_loop_infos _ _ _ _ _ _ _ _ _ Hl)).
      reflexivity.
    + now rewrite quiet.
    + reflexivity.
  - unfold bind at 1. unfold raise. now rewrite quiet.
Qed.

End Quiet.

(** ** The HTTP handlers *)


(** [generate_image] on a JSON body that has a prompt and an integer
    count: one call of the pipeline on the checked arguments, answered
    with status 200. *)
Lemma generate_image_run (E : Env) (g : generator) (data : dict) (z : Z) w :
  dict_mem data "prompt" = true ->
  dict_get data "count" (PInt 1) = PInt z ->
  generate_image E g true data w
  = match generate_images E g (dict_get data "prompt" PNone)
            (PInt (Z.min (Z.max 1 z) 10))
            (checked_format (dict_get data "format" (PStr "url")))
            (dict_get data "save_images" (PBool true)) w with
    | (Ret result, w') => (Ret (result, 200), w')
    | (Raise e, w') => (Raise e, w')
    | (Exit c, w') => (Exit c, w')
    end.
Proof.
  intros Hp Hc. unfold generate_image. rewrite Hp, Hc. reflexivity.
Qed.

(** ** The claims *)

(** C1 on [generate_images].  The [print] that opens the function is
    outside the [try]: when the standard output cannot encode its text
    the call raises [UnicodeEncodeError] to its caller, before any
    request is sent. *)
Theorem print_failure_escapes_generate_images :
  Console.generate_images legacy_console_env sample_generator
    (PStr "a red fox") (PInt 1) (PStr "url") (PBool true) []
  = (Raise unicode_encode_error, []).
Proof. reflexivity. Qed.

(** C2, as the code has it.  [generate_images] does not clamp: the one
    request it sends carries [n = count] unchanged.  The clamp into
    [1, 10] is applied by the caller: the handler of [/generate-image]
    passes [min(max(1, count), 10)], so through it the service is asked
    for at least 1 and at most 10 images. *)
Theorem count_forwarded_unchanged_clamped_by_handler (E : Env)
    (self : generator) (w : world) :
  (forall prompt count format_type save_images,
     exists out evs,
       generate_images E self prompt count format_type save_images w
       = (out, w ++ EvGenerate (generate_request self prompt count format_type)
                    :: evs)
       /\ Forall local evs
       /\ req_n (generate_request self prompt count format_type) = count)
  /\ (forall data z,
        dict_mem data "prompt" = true ->
        dict_get data "count" (PInt 1) = PInt z ->
        exists out r evs n,
          generate_image E self true data w = (out, w ++ EvGenerate r :: evs)
          /\ Forall local evs
          /\ req_n r = PInt n /\ 1 <= n <= 10).
Proof.
  split.
  - intros prompt count fmt save.
    destruct (generate_images_events E self prompt count fmt save w)
      as (o & evs & H1 & H2).
    exists o, evs. auto.
  - intros data z Hp Hc. rewrite (generate_image_run E self data z w Hp Hc).
    destruct (generate_images_events E self (dict_get data "prompt" PNone)
                (PInt (Z.min (Z.max 1 z) 10))
                (checked_format (dict_get data "format" (PStr "url")))
                (dict_get data "save_images" (PBool true)) w)
      as (o & evs & H1 & H2).
    rewrite H1.
    destruct o; eexists _, _, evs, (Z.min (Z.max 1 z) 10);
      (split; [reflexivity |]);
      (split; [assumption |]); (split; [reflexivity | lia]).
Qed.

Lemma count_forwarded_unchanged_clamped_by_handler_witness :
  exists out r evs n,
    generate_image sample_env sample_generator true
      [("prompt", PStr "a red fox"); ("count", PInt 50)] []
    = (out, [] ++ EvGenerate r :: evs)
    /\ Forall local evs /\ req_n r = PInt n /\ 1 <= n <= 10.
Proof.
  apply (proj2 (count_forwarded_unchanged_clamped_by_handler sample_env
                  sample_generator [])
           [("prompt", PStr "a red fox"); ("count", PInt 50)] 50);
    reflexivity.
Defined.

(** C2, as stated, fails: asked for 50 images, [generate_images] sends a
    request for 50. *)
Lemma generate_images_does_not_clamp :
  exists out evs,
    generate_images sample_env sample_generator (PStr "a red fox") (PInt 50)
      (PStr "url") (PBool false) []
    = (out,
       EvGenerate {| req_base_url := "https://api.x.ai/v1";
                     req_api_key := "key";
                     req_model := "grok-2-image";
                     req_prompt := PStr "a red fox";
                     req_n := PInt 50;
                     req_response_format := PStr "url" |} :: evs).
Proof. eexists _, _. reflexivity. Qed.

(** C3. When [generate_images] reports success, [count] is the number of
    descriptors in [images], which is the number the service returned;
    the descriptors are in the order of the service's answer, and the
    descriptor at position [k] (from 0) carries [index = k + 1] and the
    attributes of the [k]-th returned image. *)
Theorem success_count_order_index (E : Env) (self : generator)
    (prompt count format_type save_images : pyval) (w w' : world)
    (result : dict) :
  generate_images E self prompt count format_type save_images w
  = (Ret result, w') ->
  dict_lookup result "success" = Some (PBool true) ->
  exists data images,
    images_generate E w (generate_request self prompt count format_type)
    = inr (Some data)
    /\ dict_lookup result "images" = Some (PList images)
    /\ dict_lookup result "count"
       = Some (PInt (Z.of_nat (List.length images)))
    /\ List.length images = List.length data
    /\ forall k d, nth_error data k = Some d ->
         exists info,
           nth_error images k = Some (PDict info)
           /\ dict_lookup info "index" = Some (PInt (Z.of_nat k + 1))
           /\ dict_lookup info "revised_prompt"
              = Some (of_opt_str (revised_prompt d))
           /\ dict_lookup info "url" = Some (of_opt_str (url d))
           /\ dict_lookup info "b64_json" = Some (of_opt_str (b64_json d)).
Proof.
  intros H Hs. rewrite generate_images_run in H. cbv zeta in H.
  destruct (images_generate E w (generate_request self prompt count format_type))
    as [e | [data |]].
  1, 3: inversion H; subst result; discriminate.
  match type of H with
  | context [images_loop E self prompt format_type save_images 0 data ?w1] =>
      destruct (images_loop E self prompt format_type save_images 0 data w1)
        as [[images | e | c] w2] eqn:Hl
  end; try discriminate.
  2: inversion H; subst result; discriminate.
  inversion H; subst result w2. clear H.
  destruct (images_loop_nth E self _ _ _ _ _ _ _ _ Hl) as [Hlen Hnth].
  exists data, images. split; [reflexivity |]. split; [reflexivity |].
  split; [simpl; now rewrite Hlen |]. split; [assumption |].
  intros k d Hk.
  destruct (Hnth k d Hk) as (wk & info & wk' & _ & Hstep & _ & Hi).
  destruct (image_step_shape E self _ _ _ _ _ _ _ _ Hstep) as (sp & -> & _).
  eexists. split; [exact Hi |]. repeat split; reflexivity.
Qed.

Lemma success_count_order_index_witness :
  exists (data : list image_data) (images : list pyval),
    images_generate sample_env []
      (generate_request sample_generator (PStr "a red fox") (PInt 2)
         (PStr "url"))
    = inr (Some data)
    /\ List.length images = List.length data
    /\ List.length images = 2%nat.
Proof.
  destruct (success_count_order_index sample_env sample_generator
              (PStr "a red fox") (PInt 2) (PStr "url") (PBool true) [] _ _
              eq_refl eq_refl)
    as (data & images & H1 & H2 & H3 & H4 & H5).
  exists data, images. split; [exact H1 |]. split; [exact H4 |].
  rewrite H4. injection H1 as <-. reflexivity.
Defined.

(** C7, as the code has it.  Every record has [success] and
    [original_prompt], and has [error] exactly when [success] is false.
    A successful record also has [count], [images] and [timestamp]; a
    failed record has none of the three. *)
Theorem result_record_fields (E : Env) (self : generator)
    (prompt count format_type save_images : pyval) (w w' : world)
    (result : dict) :
  generate_images E self prompt count format_type save_images w
  = (Ret result, w') ->
  dict_mem result "success" = true
  /\ dict_mem result "original_prompt" = true
  /\ (dict_lookup result "success" = Some (PBool true)
      \/ dict_lookup result "success" = Some (PBool false))
  /\ (dict_mem result "error" = true
      <-> dict_lookup result "success" = Some (PBool false))
  /\ (dict_lookup result "success" = Some (PBool true) ->
      dict_mem result "count" = true /\ dict_mem result "images" = true
      /\ dict_mem result "timestamp" = true)
  /\ (dict_lookup result "success" = Some (PBool false) ->
      dict_mem result "count" = false /\ dict_mem result "images" = false
      /\ dict_mem result "timestamp" = false).
Proof.
  intros H. rewrite generate_images_run in H. cbv zeta in H.
  assert (R : (exists e, result = error_result e prompt)
              \/ exists data images t,
                   result = success_result prompt data images t).
  { destruct (images_generate E w _) as [e | [data |]].
    1, 3: inversion H; left; eauto.
    destruct (images_loop E self prompt format_type save_images 0 data _)
      as [[images | e | c] w2]; inversion H; [right | left]; eauto. }
  destruct R as [[e ->] | (data & images & t & ->)]; cbn;
    repeat split; auto; intros; discriminate.
Qed.

Lemma result_record_fields_witness :
  dict_mem (error_result connection_error (PStr "a red fox")) "success" = true
  /\ dict_mem (error_result connection_error (PStr "a red fox")) "error" = true.
Proof.
  destruct (result_record_fields failing_env sample_generator
              (PStr "a red fox") (PInt 2) (PStr "url") (PBool true) [] _ _
              eq_refl)
    as (H1 & H2 & H3 & H4 & H5 & H6).
  split; [exact H1 | apply H4; reflexivity].
Defined.

(** C7, as stated, fails: when the service cannot be reached the record
    has neither [count] nor [images] nor [timestamp]. *)
Lemma failed_result_lacks_count_images_timestamp :
  exists result w',
    generate_images failing_env sample_generator (PStr "a red fox") (PInt 2)
      (PStr "url") (PBool true) []
    = (Ret result, w')
    /\ dict_lookup result "success" = Some (PBool false)
    /\ dict_mem result "count" = false
    /\ dict_mem result "images" = false
    /\ dict_mem result "timestamp" = false.
Proof. eexists _, _. repeat split. Qed.

(** C10. When [save_images] is false, or [format_type] is neither
    ["url"] nor ["b64_json"], [generate_images] persists nothing: besides
    the request and one clock reading it has no effect (no download, no
    file write), and the [saved_path] of every returned descriptor is
    [None], whatever URLs or payloads the service returned. *)
Theorem no_persistence_without_flag_or_format (E : Env) (self : generator)
    (prompt count format_type save_images : pyval) (w : world) :
  truthy save_images = false
  \/ (py_eq_str format_type "url" = false
      /\ py_eq_str format_type "b64_json" = false) ->
  let r := generate_request self prompt count format_type in
  exists result evs,
    generate_images E self prompt count format_type save_images w
    = (Ret result, w ++ evs)
    /\ (evs = [EvGenerate r] \/ evs = [EvGenerate r; EvNow])
    /\ (forall u t, ~ In (EvHttpGet u t) evs)
    /\ (forall path content, ~ In (EvWrite path content) evs)
    /\ (forall images, dict_lookup result "images" = Some (PList images) ->
          forall x, In x images ->
            exists info, x = PDict info
                         /\ dict_lookup info "saved_path" = Some PNone).
Proof.
  intros H r. rewrite generate_images_run. cbv zeta. fold r.
  destruct (images_generate E w r) as [e | [data |]].
  1, 3: eexists _, [EvGenerate r]; split; [reflexivity |];
    split; [now left |];
    repeat split; try (intros; intros [A | []]; discriminate);
    intros images A; discriminate.
  rewrite (images_loop_unsaved E self prompt format_type save_images data H).
  eexists _, [EvGenerate r; EvNow]. rewrite <- app_assoc.
  split; [reflexivity |]. split; [now right |].
  repeat split; try (intros; intros [A | [A | []]]; discriminate).
  intros images A. injection A as <-. apply unsaved_infos_saved_path.
Qed.

Lemma no_persistence_without_flag_or_format_witness :
  exists result evs,
    generate_images sample_env sample_generator (PStr "a red fox") (PInt 2)
      (PStr "url") (PBool false) []
    = (Ret result, [] ++ evs)
    /\ forall path content, ~ In (EvWrite path content) evs.
Proof.
  destruct (no_persistence_without_flag_or_format sample_env sample_generator
              (PStr "a red fox") (PInt 2) (PStr "url") (PBool false) []
              (or_introl eq_refl))
    as (result & evs & H1 & H2 & H3 & H4 & H5).
  exists result, evs. split; [exact H1 | exact H4].
Defined.

(** C4. For a text prompt the derived path is the one the specification
    describes ([filename_spec]): the prompt without the characters that
    are not alphanumeric, space, hyphen or underscore, without trailing
    whitespace, with spaces replaced by underscores, cut to 50
    characters, followed by an underscore, the clock reading to the
    second, an underscore, the image index padded with zeros to two
    digits, and [.jpg], under the output directory, which is always
    [generated_images].  The path depends on nothing but the prompt, the
    index and the clock reading to the second. *)
Theorem filename_derivation (E : Env) (self : generator) (prompt : string)
    (index : Z) (w : world) :
  _generate_filename E self (PStr prompt) index "jpg" w
  = (Ret (filename_spec (output_dir self) prompt index (datetime_now E w)),
     w ++ [EvNow])
  /\ (String.length
        (take 50 (replace_char " " "_" (rstrip (str_filter allowed prompt))))
      <= 50)%nat
  /\ (0 <= index <= 99 -> String.length (format_02d index) = 2%nat)
  /\ (forall key w0 w1, __init__ E key w0 = (Ret self, w1) ->
        output_dir self = "generated_images")
  /\ (forall E' self' w',
        output_dir self' = output_dir self ->
        strftime (datetime_now E' w') = strftime (datetime_now E w) ->
        fst (_generate_filename E' self' (PStr prompt) index "jpg" w')
        = fst (_generate_filename E self (PStr prompt) index "jpg" w)).
Proof.
  split; [apply generate_filename_str |].
  split; [apply length_take |].
  split; [apply format_02d_length |].
  split; [intros key w0 w1; apply init_output_dir |].
  intros E' self' w' Hd Ht. rewrite !generate_filename_str. simpl.
  unfold filename_spec. now rewrite Hd, Ht.
Qed.

Lemma filename_derivation_witness :
  _generate_filename sample_env sample_generator (PStr "a red fox!  ") 1
    "jpg" []
  = (Ret "generated_images/a_red_fox_20240102_030405_01.jpg", [EvNow]).
Proof.
  rewrite (proj1 (filename_derivation sample_env sample_generator
                    "a red fox!  " 1 [])).
  reflexivity.
Defined.





(** C8 on [/generate].  The handler [api_generate_images] passes [count]
    and [format] as they came: a body asking for 50 images in format
    ["png"] reaches the service as a request for 50 images in format
    ["png"], answered with status 200. *)
Theorem api_generate_images_passes_count_and_format_unchecked :
  exists result evs,
    api_generate_images sample_env
      [("prompt", PStr "a red fox"); ("count", PInt 50);
       ("format", PStr "png")] []
    = (Ret (result, 200),
       EvMkdir "generated_images"
       :: EvGenerate {| req_base_url := "https://api.x.ai/v1";
                        req_api_key := embedded_key;
                        req_model := "grok-2-image";
                        req_prompt := PStr "a red fox";
                        req_n := PInt 50;
                        req_response_format := PStr "png" |}
       :: evs).
Proof. eexists _, _. reflexivity. Qed.

(** C9 on [__init__].  Built without a key, the generator never looks at
    the environment and never exits: it takes the key written in the
    code, creates the output directory and is ready to send requests. *)
Theorem missing_credential_uses_embedded_key (E : Env) (w : world) :
  __init__ E None w
  = match mkdir E w "generated_images" with
    | inr _ =>
        (Ret {| api_key := embedded_key;
                base_url := "https://api.x.ai/v1";
                output_dir := "generated_images" |},
         w ++ [EvMkdir "generated_images"])
    | inl e => (Raise e, w ++ [EvMkdir "generated_images"])
    end.
Proof. apply init_none_run. Qed.

(** ** Further properties of the code *)

(** X1. [/generate-image] answers 400 without calling the pipeline, and
    without any other effect, when the request is not JSON or its body
    has no ["prompt"] key. *)
Theorem generate_image_rejects_without_prompt (E : Env) (g : generator)
    (is_json : bool) (data : dict) (w : world) :
  is_json = false \/ dict_mem data "prompt" = false ->
  exists body,
    generate_image E g is_json data w = (Ret (body, 400), w)
    /\ dict_mem body "error" = true.
Proof.
  unfold generate_image. intros [-> | H].
  - eexists. split; reflexivity.
  - destruct is_json; simpl; [rewrite H |]; eexists; split; reflexivity.
Qed.

Lemma generate_image_rejects_without_prompt_witness :
  exists body,
    generate_image sample_env sample_generator true [("count", PInt 3)] []
    = (Ret (body, 400), [])
    /\ dict_mem body "error" = true.
Proof.
  apply (generate_image_rejects_without_prompt sample_env sample_generator
           true [("count", PInt 3)] []).
  right. reflexivity.
Defined.





(** X4. [/generate] answers 400 with the message "Prompt is required"
    and does nothing else when the prompt is missing, null or empty: no
    generator is built and no request is sent. *)
Theorem api_generate_images_requires_prompt (E : Env) (data : dict)
    (w : world) :
  truthy (dict_get data "prompt" PNone) = false ->
  api_generate_images E data w
  = (Ret ([("success", PBool false); ("error", PStr "Prompt is required")],
          400), w).
Proof. intros H. unfold api_generate_images. now rewrite H. Qed.

Lemma api_generate_images_requires_prompt_witness :
  api_generate_images sample_env [("prompt", PStr ""); ("count", PInt 2)] []
  = (Ret ([("success", PBool false); ("error", PStr "Prompt is required")],
          400), []).
Proof.
  apply (api_generate_images_requires_prompt sample_env
           [("prompt", PStr ""); ("count", PInt 2)] []).
  reflexivity.
Defined.

(** X5. [/generate], request by request.  When [request.json] raises,
    or gives a value that is not a JSON object, the exception leaves the
    handler before anything happens, because [request.json] and the
    [data.get] calls are outside the [try].  For a JSON object the
    handler always answers, with status 400 exactly when the prompt is
    missing, null or empty, and otherwise with 200 or 500: every
    exception of the generator, the pipeline or the console is turned
    into a 500 response, and the process never exits. *)
Theorem api_generate_images_answers_json_objects (E : Env)
    (request_json : exn + pyval) (w : world) :
  match request_json with
  | inl e => Console.api_generate_images E request_json w = (Raise e, w)
  | inr (PDict d) =>
      exists body status w',
        Console.api_generate_images E request_json w
        = (Ret (body, status), w')
        /\ (status = 200 \/ status = 400 \/ status = 500)
        /\ (status = 400 <-> truthy (dict_get d "prompt" PNone) = false)
  | inr _ =>
      exists e,
        Console.api_generate_images E request_json w = (Raise e, w)
        /\ exn_class e = "AttributeError"
  end.
Proof.
  destruct request_json as [e | v]; [reflexivity |].
  destruct v as [| b | z | f | t | l | d];
    try (eexists; split; reflexivity).
  change (Console.api_generate_images E (inr (PDict d)) w)
    with ((if negb (truthy (dict_get d "prompt" PNone)) then
             ret ([("success", PBool false);
                   ("error", PStr "Prompt is required")], 400)
           else
             try_except
               (generator <- Console.__init__ E None ;;
                result <- Console.generate_images E generator
                            (dict_get d "prompt" PNone)
                            (dict_get d "count" (PInt 1))
                            (dict_get d "format" (PStr "url"))
                            (dict_get d "save_images" (PBool true)) ;;
                ret (result, 200))
               (fun e =>
                  ret ([("success", PBool false);
                        ("error", PStr (str_of_exn e))], 500))) w).
  destruct (truthy (dict_get d "prompt" PNone)); cbn [negb].
  2: { eexists _, 400, _. split; [reflexivity |]. split; [auto |].
       split; auto. }
  unfold try_except, bind.
  assert (N := no_exit_console_init_none E w).
  destruct (Console.__init__ E None w) as [[g | e | c] w1].
  - match goal with
    | |- context [Console.generate_images E g ?a ?b ?c ?d w1] =>
        assert (N' := no_exit_console_generate_images E g a b c d w1);
        destruct (Console.generate_images E g a b c d w1)
          as [[r | e | c'] w2]
    end.
    + eexists _, 200, _. split; [reflexivity |]. split; [auto |].
      split; [discriminate | intros H; discriminate H].
    + eexists _, 500, _. split; [reflexivity |]. split; [auto |].
      split; [discriminate | intros H; discriminate H].
    + exfalso. now apply (N' c').
  - eexists _, 500, _. split; [reflexivity |]. split; [auto |].
    split; [discriminate | intros H; discriminate H].
  - exfalso. now apply (N c).
Qed.




(** X8. For a text prompt the derived path is the output directory, a
    slash, and a name made only of letters, digits, hyphens, underscores
    and dots: whatever the prompt contains (slashes, dots, control
    characters), the file lands directly in the output directory. *)
Theorem generated_path_stays_in_output_dir (E : Env) (self : generator)
    (prompt : string) (index : Z) (w : world) :
  exists name,
    _generate_filename E self (PStr prompt) index "jpg" w
    = (Ret (output_dir self ++ "/" ++ name)%string, w ++ [EvNow])
    /\ all_chars name_char name = true
    /\ all_chars (fun c => negb (Ascii.eqb c "/")) name = true.
Proof.
  rewrite generate_filename_str. unfold filename_spec.
  eexists. split; [reflexivity |].
  split; [apply all_chars_filename |].
  apply (all_chars_impl name_char); [| apply all_chars_filename].
  intros c H. now rewrite (name_char_not_slash c H).
Qed.

(** X9. Cleaning a prompt is idempotent: the cleaned text of a prompt is
    its own cleaned text. *)
Theorem safe_prompt_idempotent (prompt cleaned : string) :
  safe_prompt (PStr prompt) = inr cleaned ->
  safe_prompt (PStr cleaned) = inr cleaned.
Proof.
  rewrite safe_prompt_str.
  set (s := take 50 (replace_char " " "_" (rstrip (str_filter allowed prompt)))).
  assert (A : all_chars safe_char s = true) by apply all_chars_stem.
  assert (L : (String.length s <= 50)%nat) by apply length_take.
  intros H. assert (Hc : s = cleaned) by congruence. rewrite <- Hc.
  clearbody s. rewrite safe_prompt_str.
  rewrite (str_filter_id allowed s)
    by (apply (all_chars_impl safe_char); [apply safe_char_allowed | exact A]).
  rewrite (rstrip_id s A), (replace_space_id s A).
  now rewrite take_id.
Qed.

Lemma safe_prompt_idempotent_witness :
  safe_prompt (PStr "a_red_fox") = inr "a_red_fox".
Proof.
  apply (safe_prompt_idempotent "a red fox!  " "a_red_fox"). reflexivity.
Defined.





(** X12. Without a file name (or with an empty one) the session log is
    written, after one clock reading, to
    [<output_dir>/session_log_<YYYYmmdd_HHMMSS>.json], and what is
    serialized is the list of results in session order; a failure to
    write it is raised to the caller. *)
Theorem save_session_log_default_path (E : Env) (self : generator)
    (results : list dict) (filename : option string) (w : world) :
  filename = None \/ filename = Some "" ->
  let path := (output_dir self ++ "/session_log_"
               ++ strftime (datetime_now E w) ++ ".json")%string in
  let value := PList (map PDict results) in
  save_session_log E self results filename w
  = match json_dump E (w ++ [EvNow]) path value with
    | inr _ => (Ret tt, w ++ [EvNow; EvJsonDump path value])
    | inl e => (Raise e, w ++ [EvNow; EvJsonDump path value])
    end.
Proof.
  intros H. apply save_session_log_default_run.
  destruct H as [-> | ->]; reflexivity.
Qed.

Lemma save_session_log_default_path_witness :
  save_session_log sample_env sample_generator [] None []
  = (Ret tt,
     [EvNow;
      EvJsonDump "generated_images/session_log_20240102_030405.json"
        (PList [])]).
Proof.
  rewrite (save_session_log_default_path sample_env sample_generator []
             None [] (or_introl eq_refl)).
  reflexivity.
Defined.

(** X13. Whatever is typed in interactive mode, every request sent to
    the service is for a non-empty text prompt, asks for at least 1 and
    at most 10 images, and names the format ["url"] or ["b64_json"]. *)
Theorem interactive_mode_requests_are_valid (E : Env)
    (lines : list string) (w : world) :
  exists evs,
    snd (interactive_mode E lines w) = w ++ evs
    /\ Forall interactive_event evs.
Proof.
  apply (emits_bind interactive_event).
  - apply emits_init. intro; exact I.
  - intro g. apply (emits_interactive_loop E g (List.length lines)). lia.
Qed.

(** X14. When interactive mode ends by the exit choice, the session list
    holds exactly one record per request that was sent to the service:
    nothing is dropped and nothing is recorded twice. *)
Theorem interactive_mode_records_every_generation (E : Env)
    (lines : list string) (w w' : world) (session_results : list dict) :
  interactive_mode E lines w = (Ret session_results, w') ->
  exists evs,
    w' = w ++ evs
    /\ List.length session_results = count_requests evs.
Proof.
  unfold interactive_mode, bind. intros H.
  destruct (emits_init not_request E None (fun _ => I) w)
    as (evs0 & H0 & F0).
  destruct (__init__ E None w) as [[g | e | c] w1]; try discriminate H.
  simpl in H0. subst w1.
  destruct (interactive_loop_records E g _ _ _ _ _ _ (le_n _) H)
    as (added & evs & -> & -> & Hc).
  exists (evs0 ++ evs). rewrite <- app_assoc. split; [reflexivity |].
  rewrite count_requests_app, (count_requests_none evs0 F0). exact Hc.
Qed.

Lemma interactive_mode_records_every_generation_witness :
  exists evs,
    snd (interactive_mode sample_env
           ["1"; "a red fox"; "50"; "url"; "4"; "n"] [])
    = [] ++ evs
    /\ List.length
         (match fst (interactive_mode sample_env
                       ["1"; "a red fox"; "50"; "url"; "4"; "n"] []) with
          | Ret session_results => session_results
          | _ => []
          end)
       = count_requests evs.
Proof.
  apply (interactive_mode_records_every_generation sample_env
           ["1"; "a red fox"; "50"; "url"; "4"; "n"] []).
  reflexivity.
Defined.

(** X15. [quick_demo] asks the service only for a choice between 1 and
    the number of example prompts: it then requests one image of the
    example at that position (counted from 1) in format ["url"] with
    saving on.  For any other number, and for a line that is not a
    number, it returns nothing and sends no request. *)
Theorem quick_demo_choice (E : Env) (line : string) (w : world) :
  (forall n,
     int_of_str E line = Some n -> 1 <= n <= 8 ->
     exists selected,
       nth_error EXAMPLE_PROMPTS (Z.to_nat (n - 1)) = Some selected
       /\ quick_demo E (Some line) w
          = bind (__init__ E None)
              (fun g =>
                 bind (generate_images E g (PStr selected) (PInt 1)
                         (PStr "url") (PBool true))
                   (fun result => ret (Some result))) w)
  /\ (int_of_str E line = None
      \/ (exists n, int_of_str E line = Some n /\ (n < 1 \/ 8 < n)) ->
      quick_demo E (Some line) w
      = bind (__init__ E None) (fun _ => ret None) w).
Proof.
  split.
  - intros n Hn Hr. unfold quick_demo. rewrite Hn.
    assert (C : n = 1 \/ n = 2 \/ n = 3 \/ n = 4 \/ n = 5 \/ n = 6
                \/ n = 7 \/ n = 8) by lia.
    repeat (destruct C as [-> | C]; [eexists; split; reflexivity |]).
    subst n. eexists; split; reflexivity.
  - intros [H | (n & H & Hr)]; unfold quick_demo; rewrite H; [reflexivity |].
    assert (B : ((0 <=? n - 1) && (n - 1 <? Z.of_nat (List.length EXAMPLE_PROMPTS)))%Z
                = false).
    { simpl List.length. apply andb_false_iff. destruct Hr.
      - left. apply Z.leb_gt. lia.
      - right. apply Z.ltb_ge. simpl. lia. }
    now rewrite B.
Qed.

Lemma quick_demo_choice_witness :
  exists selected,
    nth_error EXAMPLE_PROMPTS (Z.to_nat (3 - 1)) = Some selected
    /\ quick_demo sample_env (Some "3") []
       = bind (__init__ sample_env None)
           (fun g =>
              bind (generate_images sample_env g (PStr selected) (PInt 1)
                      (PStr "url") (PBool true))
                (fun result => ret (Some result))) [].
Proof.
  apply (proj1 (quick_demo_choice sample_env "3" []) 3);
    [reflexivity | lia].
Defined.


(** X17. Within the same second, the paths derived for one text prompt
    and two image indices are equal only when the indices are equal:
    the images of one call never overwrite each other. *)
Theorem generated_paths_differ_by_index (E : Env) (self : generator)
    (prompt : string) (i j : Z) (w1 w2 : world) :
  strftime (datetime_now E w1) = strftime (datetime_now E w2) ->
  fst (_generate_filename E self (PStr prompt) i "jpg" w1)
  = fst (_generate_filename E self (PStr prompt) j "jpg" w2) ->
  i = j.
Proof.
  intros Ht. rewrite !generate_filename_str. simpl. intros H.
  injection H as H. unfold filename_spec in H. rewrite Ht in H.
  do 6 apply append_inv_head in H.
  apply append_inv_tail in H.
  rewrite <- (read_format_02d i), <- (read_format_02d j). now rewrite H.
Qed.

Lemma generated_paths_differ_by_index_witness : 2 = 2.
Proof.
  apply (generated_paths_differ_by_index sample_env sample_generator
           "a red fox" 2 2 [] [EvNow]); reflexivity.
Defined.



(** X19. The two front ends that clamp agree: for a typed count that
    [int] accepts, interactive mode passes the same number that the
    [/generate-image] handler computes from that integer. *)
Theorem interactive_and_handler_clamp_agree (E : Env) (line : string)
    (z : Z) :
  line <> "" ->
  int_of_str E line = Some z ->
  min_max_1_10 (PInt z) = inr (PInt (interactive_count E line)).
Proof.
  intros Hl Hz. apply String.eqb_neq in Hl.
  unfold interactive_count, min_max_1_10. rewrite Hl, Hz.
  do 2 f_equal. lia.
Qed.

Lemma interactive_and_handler_clamp_agree_witness :
  min_max_1_10 (PInt 50) = inr (PInt (interactive_count sample_env "50")).
Proof.
  apply (interactive_and_handler_clamp_agree sample_env "50" 50);
    [discriminate | reflexivity].
Defined.

(** X20. [generate_images] with its console output.  Once the [print]
    that opens it has been written, the call returns a record unless the
    [print] of the [except] branch itself raises; in particular, when
    the remote call raises, or answers without a list of images, and
    the error line can be written, the record returned is the failure
    record with the text of the exception. *)
Theorem generate_images_returns_unless_print_raises (E : Env)
    (self : generator) (prompt count format_type save_images : pyval)
    (w : world) :
  stdout_write E w (MsgGenerating count prompt) = inr tt ->
  let r := generate_request self prompt count format_type in
  ((exists result w',
      Console.generate_images E self prompt count format_type save_images w
      = (Ret result, w'))
   \/ (exists e0 e w',
         Console.generate_images E self prompt count format_type
           save_images w
         = (Raise e, w')
         /\ stdout_write E w' (MsgErrorGenerating e0) = inl e))
  /\ (forall e,
        images_generate E w r = inl e ->
        stdout_write E (w ++ [EvGenerate r]) (MsgErrorGenerating e) = inr tt ->
        Console.generate_images E self prompt count format_type save_images w
        = (Ret [ ("success", PBool false); ("error", PStr (exn_msg e));
                 ("original_prompt", prompt) ],
           w ++ [EvGenerate r]))
  /\ (images_generate E w r = inr None ->
      stdout_write E (w ++ [EvGenerate r]) (MsgErrorGenerating no_len)
      = inr tt ->
      Console.generate_images E self prompt count format_type save_images w
      = (Ret [ ("success", PBool false);
               ("error", PStr "object of type 'NoneType' has no len()");
               ("original_prompt", prompt) ],
         w ++ [EvGenerate r])).
Proof.
  intros H r. split; [now apply console_generate_images_after_print |].
  split; [intros e Hg Hp | intros Hg Hp];
    rewrite console_generate_images_run, H;
    unfold Console.generate_images_try; cbv zeta; fold r;
    unfold bind at 1; unfold call; rewrite Hg.
  - now rewrite Hp.
  - unfold bind at 1. unfold raise. now rewrite Hp.
Qed.

Lemma generate_images_returns_unless_print_raises_witness :
  Console.generate_images failing_env sample_generator (PStr "a red fox")
    (PInt 2) (PStr "url") (PBool true) []
  = (Ret [ ("success", PBool false); ("error", PStr "Connection refused");
           ("original_prompt", PStr "a red fox") ],
     [] ++ [EvGenerate (generate_request sample_generator (PStr "a red fox")
                          (PInt 2) (PStr "url"))]).
Proof.
  apply (proj1 (proj2 (generate_images_returns_unless_print_raises
                         failing_env sample_generator (PStr "a red fox")
                         (PInt 2) (PStr "url") (PBool true) [] eq_refl))
           connection_error); reflexivity.
Defined.

(** X21. Console output has no influence when it works: if every
    [print] is written, [generate_images] with its console output
    returns the same record and has the same effects as the function
    without its [print] statements. *)
Theorem console_output_does_not_change_the_call (E : Env) (self : generator)
    (prompt count format_type save_images : pyval) (w : world) :
  console_ok E ->
  Console.generate_images E self prompt count format_type save_images w
  = generate_images E self prompt count format_type save_images w.
Proof. intros H. now apply console_generate_images_quiet. Qed.

Lemma console_output_does_not_change_the_call_witness :
  Console.generate_images sample_env sample_generator (PStr "a red fox")
    (PInt 2) (PStr "url") (PBool true) []
  = generate_images sample_env sample_generator (PStr "a red fox")
      (PInt 2) (PStr "url") (PBool true) [].
Proof.
  apply (console_output_does_not_change_the_call sample_env sample_generator
           (PStr "a red fox") (PInt 2) (PStr "url") (PBool true) []).
  intros w m. reflexivity.
Defined.
